(** * AccelerometerWithLocationSample: stationary detection and GPS drift rule

    A shallow embedding of [src/utils/sensors.ts] (class [StationaryDetector])
    and of the position callback of [src/LocationService.ts], followed by the
    properties of the specification that were checked against them.

    Conventions of the embedding.
    - A JavaScript [number] that holds a measurement (acceleration, speed,
      threshold, mean, standard deviation) is an IEEE 754 binary64 value,
      modelled by [spec_float] with precision 53 and maximal exponent 1024.
    - A JavaScript [number] that holds a time in milliseconds or a count
      ([Date.now()], the two durations, [minSampleCount], [duration]) is an
      integer, modelled by [Z]; on such values the operations of the code
      ([-], [<=], [>=]) are exact.
    - [Date.now()] is an input: every place where the code reads the clock
      becomes an argument of the embedded function.
    - The detector object is a record; a method that mutates it returns the
      successor record. *)

From Stdlib Require Import ZArith List Bool Lia Sorted.
From Stdlib Require Import SpecFloat.
From Stdlib Require String.
Import ListNotations.
Open Scope Z_scope.

(* ================================================================== *)
(** ** JavaScript numbers (binary64) *)

Module JSNumber.

Definition number : Type := spec_float.

Definition prec : Z := 53.
Definition emax : Z := 1024.

Definition add : number -> number -> number := SFadd prec emax.
Definition sub : number -> number -> number := SFsub prec emax.
Definition mul : number -> number -> number := SFmul prec emax.
Definition div : number -> number -> number := SFdiv prec emax.
Definition sqrt : number -> number := SFsqrt prec emax.
Definition abs : number -> number := SFabs.
Definition neg : number -> number := SFopp.
(** [ltb a b] is the JavaScript test [a < b], [leb a b] is [a <= b]. *)
Definition ltb : number -> number -> bool := SFltb.
Definition leb : number -> number -> bool := SFleb.

(** The number denoted by an integer (exact below 2^53, rounded to nearest
    above); the literal [0] is [zero]. *)
Definition of_Z (n : Z) : number := binary_normalize prec emax n 0 false.
Definition zero : number := S754_zero false.

(** [arr.length] used as an operand of [/]. *)
Definition of_length (n : nat) : number := of_Z (Z.of_nat n).

(** A decimal literal [n/d] denotes the binary64 value nearest to the
    rational [n/d]; the correctly rounded quotient of two exactly
    representable integers is that value. *)
Definition literal (n d : Z) : number := div (of_Z n) (of_Z d).

(** [Math.pow(v, 2)]: the correctly rounded square. *)
Definition pow2 (v : number) : number := mul v v.

(** The literals of the two source files. *)
Definition lit_9_8 : number := S754_finite false 5516909543528858 (-49).
Definition lit_0_3 : number := S754_finite false 5404319552844595 (-54).
Definition lit_0_2 : number := S754_finite false 7205759403792794 (-55).

End JSNumber.

(* ================================================================== *)
(** ** src/utils/sensors.ts *)

Module Sensors.
Import JSNumber.

(** [interface DeviationData] *)
Record DeviationData : Type := mkDeviationData
  { value : number;
    timestamp : Z }.

(** [interface StationaryDetectionResult]; the fields live in their own
    name space because the class has a field [isStationary] too. *)
Module Result.
Record t : Type := mk
  { isStationary : bool;
    mean : number;
    standardDeviation : number;
    duration : Z;
    stateChanged : bool }.
End Result.

(** The optional argument of the constructor: every field may be absent. *)
Record Options : Type := mkOptions
  { opt_historyDurationMs : option Z;
    opt_meanThreshold : option number;
    opt_stdThreshold : option number;
    opt_stationaryDurationMs : option Z;
    opt_minSampleCount : option Z }.

(** [class StationaryDetector]: three mutable fields, five read-only
    parameters. [stationaryStartTime] is [number | null]. *)
Record StationaryDetector : Type := mkStationaryDetector
  { deviationHistory : list DeviationData;
    isStationary : bool;
    stationaryStartTime : option Z;
    historyDurationMs : Z;
    meanThreshold : number;
    stdThreshold : number;
    stationaryDurationMs : Z;
    minSampleCount : Z }.

(** [a ?? b] *)
Definition nullish {A : Type} (a : option A) (b : A) : A :=
  match a with Some v => v | None => b end.

(** [options?.f]: absent when [options] itself is absent. *)
Definition optField {A : Type} (f : Options -> option A)
           (options : option Options) : option A :=
  match options with Some o => f o | None => None end.

(** [constructor(options?)] *)
Definition constructor (options : option Options) : StationaryDetector :=
  {| deviationHistory := [];
     isStationary := false;
     stationaryStartTime := None;
     historyDurationMs := nullish (optField opt_historyDurationMs options) 2000;
     meanThreshold := nullish (optField opt_meanThreshold options) lit_0_3;
     stdThreshold := nullish (optField opt_stdThreshold options) lit_0_2;
     stationaryDurationMs :=
       nullish (optField opt_stationaryDurationMs options) 2000;
     minSampleCount := nullish (optField opt_minSampleCount options) 10 |}.

(** Assignments to the mutable fields. *)
Definition set_deviationHistory (d : StationaryDetector)
           (h : list DeviationData) : StationaryDetector :=
  {| deviationHistory := h;
     isStationary := isStationary d;
     stationaryStartTime := stationaryStartTime d;
     historyDurationMs := historyDurationMs d;
     meanThreshold := meanThreshold d;
     stdThreshold := stdThreshold d;
     stationaryDurationMs := stationaryDurationMs d;
     minSampleCount := minSampleCount d |}.

Definition set_state (d : StationaryDetector) (st : bool)
           (since : option Z) : StationaryDetector :=
  {| deviationHistory := deviationHistory d;
     isStationary := st;
     stationaryStartTime := since;
     historyDurationMs := historyDurationMs d;
     meanThreshold := meanThreshold d;
     stdThreshold := stdThreshold d;
     stationaryDurationMs := stationaryDurationMs d;
     minSampleCount := minSampleCount d |}.

(** [addDeviationData(deviation)]; [now] is its reading of [Date.now()].
    The sample is pushed at the end, then the array is filtered. *)
Definition addDeviationData (d : StationaryDetector) (deviation : number)
           (now : Z) : StationaryDetector :=
  let pushed := deviationHistory d ++ [mkDeviationData deviation now] in
  set_deviationHistory d
    (filter (fun data => now - timestamp data <=? historyDurationMs d) pushed).

(** [calculateMean()] *)
Definition calculateMean (d : StationaryDetector) : number :=
  match deviationHistory d with
  | [] => zero
  | _ =>
      let sum :=
        fold_left (fun acc data => add acc (value data))
                  (deviationHistory d) zero in
      div sum (of_length (length (deviationHistory d)))
  end.

(** [calculateStandardDeviation()] *)
Definition calculateStandardDeviation (d : StationaryDetector) : number :=
  match deviationHistory d with
  | [] => zero
  | _ =>
      let mean := calculateMean d in
      let squaredDiffs :=
        map (fun data => pow2 (sub (value data) mean)) (deviationHistory d) in
      let variance :=
        div (fold_left (fun acc val => add acc val) squaredDiffs zero)
            (of_length (length (deviationHistory d))) in
      sqrt variance
  end.

(** The first two statements of [detectStationary]. *)
Definition magnitude (x y z : number) : number :=
  sqrt (add (add (mul x x) (mul y y)) (mul z z)).

Definition deviationOf (x y z : number) : number :=
  abs (sub (magnitude x y z) lit_9_8).

(** The result returned when the window holds too few samples. *)
Definition neutral : Result.t :=
  Result.mk false zero zero 0 false.

(** The test of line 118, on the detector after the insertion. *)
Definition enoughData (d : StationaryDetector) : bool :=
  minSampleCount d <=? Z.of_nat (length (deviationHistory d)).

(** [isCurrentlyStationary] of lines 123-124. *)
Definition isCurrentlyStationary (d : StationaryDetector) : bool :=
  ltb (calculateMean d) (meanThreshold d)
  && ltb (calculateStandardDeviation d) (stdThreshold d).

(** [this.stationaryStartTime ? now - this.stationaryStartTime : 0]:
    the conditional tests truthiness, so both [null] and [0] select [0]. *)
Definition durationSince (since : option Z) (now : Z) : Z :=
  match since with
  | Some s => if s =? 0 then 0 else now - s
  | None => 0
  end.

(** [detectStationary(x, y, z)]. [tPush] is the clock read inside
    [addDeviationData], [tNow] the clock read on line 113. *)
Definition detectStationary (d : StationaryDetector) (x y z : number)
           (tPush tNow : Z) : StationaryDetector * Result.t :=
  let d1 := addDeviationData d (deviationOf x y z) tPush in
  let now := tNow in
  let wasStationary := isStationary d1 in
  if enoughData d1 then
    let mean := calculateMean d1 in
    let std := calculateStandardDeviation d1 in
    let d2 :=
      if isCurrentlyStationary d1 then
        let since :=
          match stationaryStartTime d1 with
          | None => now
          | Some s => s
          end in
        let stationaryDuration := now - since in
        if stationaryDurationMs d1 <=? stationaryDuration
        then (set_state d1 true (Some since), negb wasStationary)
        else (set_state d1 wasStationary (Some since), false)
      else
        (set_state d1 false None, wasStationary) in
    let duration := durationSince (stationaryStartTime (fst d2)) now in
    (fst d2,
     Result.mk (isStationary (fst d2)) mean std duration (snd d2))
  else
    (d1, neutral).

(** [getIsStationary()] *)
Definition getIsStationary (d : StationaryDetector) : bool := isStationary d.

(** [reset()] *)
Definition reset (d : StationaryDetector) : StationaryDetector :=
  set_deviationHistory (set_state d false None) [].

(** One accelerometer reading together with the two clock readings of the
    call that processes it. *)
Record Reading : Type := mkReading
  { accX : number; accY : number; accZ : number;
    pushTime : Z; nowTime : Z }.

Definition step (d : StationaryDetector) (r : Reading)
  : StationaryDetector * Result.t :=
  detectStationary d (accX r) (accY r) (accZ r) (pushTime r) (nowTime r).

(** Feeding a stream of readings: the detector after each call is paired
    with the result of that call. *)
Fixpoint feed (d : StationaryDetector) (rs : list Reading)
  : list (StationaryDetector * Result.t) :=
  match rs with
  | [] => []
  | r :: rs' => let dr := step d r in dr :: feed (fst dr) rs'
  end.

Definition results (d : StationaryDetector) (rs : list Reading)
  : list Result.t := map snd (feed d rs).

Definition lastDetector (d : StationaryDetector) (rs : list Reading)
  : StationaryDetector := fst (last (feed d rs) (d, neutral)).

End Sensors.

(* ================================================================== *)
(** ** src/LocationService.ts *)

Module LocationService.
Import JSNumber.

(** [position.coords] as delivered by the geolocation module; [altitude],
    [speed] and [heading] may be [null]. *)
Record Coords : Type := mkCoords
  { latitude : number;
    longitude : number;
    accuracy : number;
    altitude : option number;
    speed : option number;
    heading : option number }.

Record Position : Type := mkPosition
  { coords : Coords;
    timestamp : Z }.

(** What the success callback writes to the console. The drift warning
    carries the speed that it prints. *)
Inductive ConsoleEntry : Type :=
| LogPosition (p : Position) (speed : number)
| WarnGpsDrift (gpsSpeed : number).

(** The fields of [class LocationService] that the callback reads. *)
Record LocationService : Type := mkLocationService
  { watchId : option Z;
    stationaryDetector : Sensors.StationaryDetector }.

Definition GPS_DRIFT_SPEED_THRESHOLD : number := lit_0_3.

(** The options object of the constructor (lines 18-24). *)
Definition detectorOptions : Sensors.Options :=
  Sensors.mkOptions (Some 2000) (Some lit_0_3) (Some lit_0_2)
                    (Some 2000) (Some 10).

(** [constructor()] *)
Definition constructor : LocationService :=
  {| watchId := None;
     stationaryDetector := Sensors.constructor (Some detectorOptions) |}.

(** The success callback passed to [Geolocation.watchPosition]
    (lines 71-95). *)
Definition onPosition (svc : LocationService) (position : Position)
  : list ConsoleEntry :=
  let speed := Sensors.nullish (speed (coords position)) zero in
  LogPosition position speed ::
  (if Sensors.getIsStationary (stationaryDetector svc)
      && ltb GPS_DRIFT_SPEED_THRESHOLD speed
   then [WarnGpsDrift speed]
   else []).

(** The drift signals among the console output of one fix. *)
Definition driftSignals (out : list ConsoleEntry) : list number :=
  flat_map (fun e => match e with
                     | WarnGpsDrift s => [s]
                     | LogPosition _ _ => []
                     end) out.

End LocationService.

(* ================================================================== *)
(** ** Vocabulary of the specification *)

Module Spec.
Import JSNumber Sensors.

(** A number that is finite or infinite and strictly above zero. *)
Definition positive_number (x : number) : Prop :=
  match x with
  | S754_finite false _ _ | S754_infinity false => True
  | _ => False
  end.

(** The detector once [addDeviationData] has run for reading [r]: the
    window "after insertion and pruning". *)
Definition inserted (d : StationaryDetector) (r : Reading) : StationaryDetector :=
  addDeviationData d (deviationOf (accX r) (accY r) (accZ r)) (pushTime r).

(** A reading whose magnitude is exactly the literal 9.8. *)
Definition atRest (r : Reading) : Prop :=
  magnitude (accX r) (accY r) (accZ r) = lit_9_8.

(** Every retained deviation is exactly 0. *)
Definition allZero (h : list DeviationData) : Prop :=
  Forall (fun data => value data = zero) h.

(** Every retained sample is at most [historyDurationMs] older than [now]. *)
Definition withinWindow (d : StationaryDetector) (now : Z) : Prop :=
  Forall (fun data => now - timestamp data <= historyDurationMs d)
         (deviationHistory d).

(** The array is ordered by time: no sample is older than one before it. *)
Definition chronological (h : list DeviationData) : Prop :=
  StronglySorted (fun a b => timestamp a <= timestamp b) h.

(** No retained sample is later than [now]. *)
Definition notAfter (h : list DeviationData) (now : Z) : Prop :=
  Forall (fun data => timestamp data <= now) h.

(** Two detectors carry the same five parameters. *)
Definition sameConfig (d d' : StationaryDetector) : Prop :=
  historyDurationMs d' = historyDurationMs d /\
  meanThreshold d' = meanThreshold d /\
  stdThreshold d' = stdThreshold d /\
  stationaryDurationMs d' = stationaryDurationMs d /\
  minSampleCount d' = minSampleCount d.

(** The clock readings of [addDeviationData] never go back: each one is at
    least [t], the one before it. *)
Fixpoint clockFrom (t : Z) (rs : list Reading) : Prop :=
  match rs with
  | [] => True
  | r :: rs' => t <= pushTime r /\ clockFrom (pushTime r) rs'
  end.

(** Both thresholds are above 0. *)
Definition thresholdsPositive (d : StationaryDetector) : Prop :=
  ltb zero (meanThreshold d) = true /\ ltb zero (stdThreshold d) = true.

(** The number of results that announce a change of state. *)
Definition changes (l : list Result.t) : nat :=
  length (filter Result.stateChanged l).

(** The time between the first and the last call of a stream. *)
Definition elapsed (rs : list Reading) : Z :=
  match rs with
  | [] => 0
  | r :: _ => nowTime (last rs r) - nowTime r
  end.

(** The call for [r] classifies (the window is full) and finds it quiet. *)
Definition quietAt (d : StationaryDetector) (r : Reading) : Prop :=
  enoughData (inserted d r) = true /\
  isCurrentlyStationary (inserted d r) = true.

(** From detector [d] on, every call that makes the transition to
    stationary ends a quiet streak that began, with the start time unset,
    at a call [q] made after [d], that kept its start time at every call
    since, and that has lasted at least [stationaryDurationMs]. *)
Definition dwellRestarts (d : StationaryDetector) : Prop :=
  forall pre r,
    Result.stateChanged (snd (step (lastDetector d pre) r)) = true ->
    Result.isStationary (snd (step (lastDetector d pre) r)) = true ->
    exists pre1 q mid,
      pre ++ [r] = pre1 ++ q :: mid /\
      stationaryStartTime (lastDetector d pre1) = None /\
      quietAt (lastDetector d pre1) q /\
      Forall (fun dr => stationaryStartTime (fst dr) = Some (nowTime q))
             (feed (lastDetector d pre1) (q :: mid)) /\
      stationaryDurationMs d <= nowTime r - nowTime q.

(** *** Scenarios *)

(** Further literals of the scenarios of the specification. *)
Definition lit_0_5 : number := S754_finite false 4503599627370496 (-53).
Definition lit_0_1 : number := S754_finite false 7205759403792794 (-56).
Definition lit_5 : number := S754_finite false 5629499534213120 (-50).

(** A clock value of the present day, in milliseconds. *)
Definition t0 : Z := 1700000000000.

(** The device lies flat: gravity on one axis, read at [t0 + ms]. *)
Definition restReading (ms : Z) : Reading :=
  mkReading lit_9_8 zero zero (t0 + ms) (t0 + ms).

(** The device is shaken: no acceleration at all on any axis (free fall),
    a deviation of 9.8. *)
Definition fallReading (ms : Z) : Reading :=
  mkReading zero zero zero (t0 + ms) (t0 + ms).

(** [n] readings at rest, one every [period] milliseconds from [start]. *)
Definition restStream (start period : Z) (n : nat) : list Reading :=
  map (fun k => restReading (start + period * Z.of_nat k)) (seq 0 n).

(** [n] readings in free fall, one every [period] milliseconds. *)
Definition fallStream (start period : Z) (n : nat) : list Reading :=
  map (fun k => fallReading (start + period * Z.of_nat k)) (seq 0 n).

(** The detector of [LocationService] after three seconds at rest, sampled
    at 10 Hz. *)
Definition restedDetector : StationaryDetector :=
  lastDetector (constructor (Some LocationService.detectorOptions))
               (restStream 0 100 30).

(** A fix of the GPS receiver that reports [s] as its speed. *)
Definition fixWithSpeed (s : option number) : LocationService.Position :=
  LocationService.mkPosition
    (LocationService.mkCoords (of_Z 35) (of_Z 139) (of_Z 5) None s None)
    (t0 + 3000).

End Spec.

(* ================================================================== *)
(** ** src/LocationService.ts: the life cycle of the service *)

Module Service.
Import JSNumber.

(** What the methods write to the console, apart from the two entries of
    the position callback modelled above. The numbers printed with
    [toFixed] are carried as numbers. *)
Inductive Message : Type :=
| BecameStationary (mean std : number) (duration : Z)
| StartedMoving (mean std : number)
| AccelerometerStarted
| AlreadyWatching
| WatchingStarted
| WatchingStopped
| AccelerometerStopped
| PositionError (code : Z) (message : String.string)
| Fix (e : LocationService.ConsoleEntry).

(** What the methods ask of the platform, in the order they ask it. *)
Inductive Effect : Type :=
| SetUpdateInterval (ms : Z)
| Subscribe
| WatchPosition (enableHighAccuracy : bool)
                (distanceFilter interval fastestInterval : Z)
| ClearWatch (id : Z)
| Unsubscribe (subscription : Z)
| Console (m : Message).

(** The three fields of [class LocationService]. A subscription object is
    known by a handle. *)
Record State : Type := mkState
  { watchId : option Z;
    accelerometerSubscription : option Z;
    stationaryDetector : Sensors.StationaryDetector }.

Definition ACCELEROMETER_UPDATE_INTERVAL : Z := 100.

(** The part of the state that the position callback reads. *)
Definition view (s : State) : LocationService.LocationService :=
  LocationService.mkLocationService (watchId s) (stationaryDetector s).

(** [constructor()] *)
Definition constructor : State :=
  {| watchId := None;
     accelerometerSubscription := None;
     stationaryDetector :=
       Sensors.constructor (Some LocationService.detectorOptions) |}.

(** The callback given to [accelerometer.subscribe] (lines 34-53), run on
    one reading. *)
Definition onAccelerometer (s : State) (r : Sensors.Reading)
  : State * list Effect :=
  let dr := Sensors.step (stationaryDetector s) r in
  let result := snd dr in
  ({| watchId := watchId s;
      accelerometerSubscription := accelerometerSubscription s;
      stationaryDetector := fst dr |},
   if Sensors.Result.stateChanged result then
     if Sensors.Result.isStationary result then
       [Console (BecameStationary (Sensors.Result.mean result)
                                  (Sensors.Result.standardDeviation result)
                                  (Sensors.Result.duration result))]
     else
       [Console (StartedMoving (Sensors.Result.mean result)
                               (Sensors.Result.standardDeviation result))]
   else []).

(** [startAccelerometerWatching()]; [subscription] is the object that
    [accelerometer.subscribe] returns. *)
Definition startAccelerometerWatching (s : State) (subscription : Z)
  : State * list Effect :=
  ({| watchId := watchId s;
      accelerometerSubscription := Some subscription;
      stationaryDetector := stationaryDetector s |},
   [SetUpdateInterval ACCELEROMETER_UPDATE_INTERVAL; Subscribe;
    Console AccelerometerStarted]).

(** [startWatching()]; [id] is the number that [Geolocation.watchPosition]
    returns. *)
Definition startWatching (s : State) (subscription id : Z)
  : State * list Effect :=
  match watchId s with
  | Some _ => (s, [Console AlreadyWatching])
  | None =>
      let se := startAccelerometerWatching s subscription in
      ({| watchId := Some id;
          accelerometerSubscription := accelerometerSubscription (fst se);
          stationaryDetector := stationaryDetector (fst se) |},
       snd se ++ [WatchPosition true 0 5000 2000; Console WatchingStarted])
  end.

(** [stopWatching()] *)
Definition stopWatching (s : State) : State * list Effect :=
  let se1 :=
    match watchId s with
    | Some id =>
        ({| watchId := None;
            accelerometerSubscription := accelerometerSubscription s;
            stationaryDetector := stationaryDetector s |},
         [ClearWatch id; Console WatchingStopped])
    | None => (s, [])
    end in
  let se2 :=
    match accelerometerSubscription (fst se1) with
    | Some subscription =>
        ({| watchId := watchId (fst se1);
            accelerometerSubscription := None;
            stationaryDetector := stationaryDetector (fst se1) |},
         [Unsubscribe subscription; Console AccelerometerStopped])
    | None => (fst se1, [])
    end in
  (fst se2, snd se1 ++ snd se2).

(** [isWatching()] *)
Definition isWatching (s : State) : bool :=
  match watchId s with Some _ => true | None => false end.

(** [getIsStationary()] *)
Definition getIsStationary (s : State) : bool :=
  Sensors.getIsStationary (stationaryDetector s).

(** The two callbacks given to [Geolocation.watchPosition]. *)
Definition onPosition (s : State) (position : LocationService.Position)
  : State * list Effect :=
  (s, map (fun e => Console (Fix e))
          (LocationService.onPosition (view s) position)).

Definition onError (s : State) (code : Z) (message : String.string)
  : State * list Effect :=
  (s, [Console (PositionError code message)]).

(** Whatever may happen to a service: a call of one of its two public
    methods that change it, or a callback from the platform. *)
Inductive Call : Type :=
| CallStart (subscription id : Z)
| CallStop
| Reading (r : Sensors.Reading)
| Position (p : LocationService.Position)
| Failure (code : Z) (message : String.string).

Definition perform (s : State) (c : Call) : State * list Effect :=
  match c with
  | CallStart subscription id => startWatching s subscription id
  | CallStop => stopWatching s
  | Reading r => onAccelerometer s r
  | Position p => onPosition s p
  | Failure code message => onError s code message
  end.

(** A history of calls: the state it leaves and all it did, in order. *)
Fixpoint run (s : State) (cs : list Call) : State * list Effect :=
  match cs with
  | [] => (s, [])
  | c :: cs' =>
      let se := perform s c in
      let se' := run (fst se) cs' in
      (fst se', snd se ++ snd se')
  end.

(** The accelerometer readings among the calls. *)
Definition readingsOf (cs : list Call) : list Sensors.Reading :=
  flat_map (fun c => match c with Reading r => [r] | _ => [] end) cs.

End Service.

(* ================================================================== *)
(** ** Further vocabulary *)

Module Notions.
Import JSNumber Sensors.

(** The sample that a call stores for reading [r]. *)
Definition sampleOf (r : Reading) : DeviationData :=
  mkDeviationData (deviationOf (accX r) (accY r) (accZ r)) (pushTime r).

(** The test of the filter of [addDeviationData] at clock [now]. *)
Definition inRange (d : StationaryDetector) (now : Z) (data : DeviationData)
  : bool :=
  now - timestamp data <=? historyDurationMs d.

(** The clock read on line 113 never goes back along the stream. *)
Fixpoint nowFrom (t : Z) (rs : list Reading) : Prop :=
  match rs with
  | [] => True
  | r :: rs' => t <= nowTime r /\ nowFrom (nowTime r) rs'
  end.

(** A detector that is stationary holds the start time of its streak. *)
Definition streakKnown (d : StationaryDetector) : Prop :=
  isStationary d = true -> stationaryStartTime d <> None.

(** The number of effects that satisfy a test. *)
Definition countEffects (f : Service.Effect -> bool)
           (es : list Service.Effect) : nat :=
  length (filter f es).

Definition isWatchPosition (e : Service.Effect) : bool :=
  match e with Service.WatchPosition _ _ _ _ => true | _ => false end.
Definition isClearWatch (e : Service.Effect) : bool :=
  match e with Service.ClearWatch _ => true | _ => false end.
Definition isSubscribe (e : Service.Effect) : bool :=
  match e with Service.Subscribe => true | _ => false end.
Definition isUnsubscribe (e : Service.Effect) : bool :=
  match e with Service.Unsubscribe _ => true | _ => false end.
Definition isStateLog (e : Service.Effect) : bool :=
  match e with
  | Service.Console (Service.BecameStationary _ _ _) => true
  | Service.Console (Service.StartedMoving _ _) => true
  | _ => false
  end.
Definition isBecameStationary (e : Service.Effect) : bool :=
  match e with
  | Service.Console (Service.BecameStationary _ _ _) => true
  | _ => false
  end.
Definition isDriftWarning (e : Service.Effect) : bool :=
  match e with
  | Service.Console (Service.Fix (LocationService.WarnGpsDrift _)) => true
  | _ => false
  end.

(** 1 while the service is watching, 0 otherwise. *)
Definition watching (s : Service.State) : nat :=
  if Service.isWatching s then 1 else 0.

(** The watch and the subscription are held together or not at all. *)
Definition paired (s : Service.State) : Prop :=
  Service.watchId s = None <-> Service.accelerometerSubscription s = None.

End Notions.

(* ================================================================== *)
(** * Properties *)

(** ** Facts about binary64 arithmetic used below *)

Module NumberFacts.
Import JSNumber Spec.

Lemma compare_swap (a b : number) :
  SFcompare b a = option_map CompOpp (SFcompare a b).
Proof.
  destruct a as [sa|sa| |sa ma ea], b as [sb|sb| |sb mb eb];
    try reflexivity;
    try (destruct sa; reflexivity);
    try (destruct sb; reflexivity);
    try (destruct sa, sb; reflexivity).
  destruct sa, sb; simpl; try reflexivity;
    rewrite (Z.compare_antisym ea eb);
    destruct (ea ?= eb); simpl; try reflexivity;
    rewrite (Pos.compare_cont_antisym ma mb Eq); simpl;
    try rewrite CompOpp_involutive; reflexivity.
Qed.

(** [a >= b] excludes [a < b]. *)
Lemma leb_not_ltb (a b : number) : leb b a = true -> ltb a b = false.
Proof.
  unfold leb, ltb, SFleb, SFltb. rewrite (compare_swap a b).
  destruct (SFcompare a b) as [[]|]; simpl; congruence.
Qed.

(** Addition is commutative, also on zeros, infinities and NaN. *)
Lemma add_comm (a b : number) : add a b = add b a.
Proof.
  unfold add.
  destruct a as [sa|sa| |sa ma ea], b as [sb|sb| |sb mb eb];
    try reflexivity;
    try (destruct sa, sb; reflexivity).
  simpl. rewrite (Z.min_comm eb ea). f_equal. apply Z.add_comm.
Qed.

(** A square does not see the sign of its argument. *)
Lemma mul_neg_neg (a : number) : mul (neg a) (neg a) = mul a a.
Proof.
  destruct a as [s|s| |s m e]; try reflexivity; destruct s; reflexivity.
Qed.

(** *** An array length is a positive number unless it is 0 *)

Lemma shr_1_pos (mrs : shr_record) (m : positive) :
  shr_m mrs = Zpos m -> 1 < Zpos (digits2_pos m) ->
  exists m', shr_m (shr_1 mrs) = Zpos m' /\
             Zpos (digits2_pos m') = Zpos (digits2_pos m) - 1.
Proof.
  destruct mrs as [mm r s]; cbn [shr_m]. intros -> Hd.
  destruct m as [p|p|].
  - exists p. split; [reflexivity | ].
    change (digits2_pos p~1) with (Pos.succ (digits2_pos p)).
    rewrite Pos2Z.inj_succ. lia.
  - exists p. split; [reflexivity | ].
    change (digits2_pos p~0) with (Pos.succ (digits2_pos p)).
    rewrite Pos2Z.inj_succ. lia.
  - exfalso. revert Hd. change (digits2_pos 1) with 1%positive. lia.
Qed.

Lemma iter_shr_1_pos (k : positive) :
  forall (mrs : shr_record) (m : positive),
    shr_m mrs = Zpos m -> Zpos k < Zpos (digits2_pos m) ->
    exists m', shr_m (iter_pos shr_1 k mrs) = Zpos m' /\
               Zpos (digits2_pos m') = Zpos (digits2_pos m) - Zpos k.
Proof.
  induction k as [k IH|k IH|]; intros mrs m Hm Hk; cbn [iter_pos].
  - destruct (shr_1_pos mrs m Hm) as [m1 [H1 D1]]; [lia|].
    destruct (IH _ m1 H1) as [m2 [H2 D2]]; [lia|].
    destruct (IH _ m2 H2) as [m3 [H3 D3]]; [lia|].
    exists m3. split; [exact H3 | lia].
  - destruct (IH _ m Hm) as [m2 [H2 D2]]; [lia|].
    destruct (IH _ m2 H2) as [m3 [H3 D3]]; [lia|].
    exists m3. split; [exact H3 | lia].
  - apply shr_1_pos; assumption.
Qed.

Lemma shr_record_of_loc_m (m : Z) (l : location) :
  shr_m (shr_record_of_loc m l) = m.
Proof. destruct l as [|[]]; reflexivity. Qed.

Lemma shr_fexp_pos (m : positive) (e : Z) (l : location) :
  emin prec emax <= e ->
  exists m', shr_m (fst (shr_fexp prec emax (Zpos m) e l)) = Zpos m' /\
             emin prec emax <= snd (shr_fexp prec emax (Zpos m) e l).
Proof.
  intros He. unfold shr_fexp, shr.
  set (n := fexp prec emax (Zdigits2 (Zpos m) + e) - e).
  assert (Hn : n < Zpos (digits2_pos m)).
  { subst n. unfold fexp, emin, prec, emax in *. simpl Zdigits2. lia. }
  destruct n as [|k|k] eqn:En; simpl.
  - exists m. split; [apply shr_record_of_loc_m | exact He].
  - destruct (iter_shr_1_pos k (shr_record_of_loc (Zpos m) l) m
                (shr_record_of_loc_m _ _) Hn) as [m' [H' _]].
    exists m'. split; [exact H' | lia].
  - exists m. split; [apply shr_record_of_loc_m | exact He].
Qed.

Lemma round_nearest_even_pos (m : positive) (l : location) :
  exists m', round_nearest_even (Zpos m) l = Zpos m'.
Proof.
  destruct l as [|[]]; simpl; eauto; destruct m; simpl; eauto.
Qed.

Lemma binary_round_aux_pos (m : positive) (e : Z) (l : location) :
  emin prec emax <= e ->
  positive_number (binary_round_aux prec emax false (Zpos m) e l).
Proof.
  intros He. unfold binary_round_aux.
  destruct (shr_fexp_pos m e l He) as [m1 [H1 E1]].
  destruct (shr_fexp prec emax (Zpos m) e l) as [mrs1 e1]. simpl in H1, E1.
  rewrite H1.
  destruct (round_nearest_even_pos m1 (loc_of_shr_record mrs1)) as [m2 H2].
  rewrite H2.
  destruct (shr_fexp_pos m2 e1 loc_Exact E1) as [m3 [H3 _]].
  destruct (shr_fexp prec emax (Zpos m2) e1 loc_Exact) as [mrs3 e3].
  simpl in H3. rewrite H3.
  destruct (e3 <=? emax - prec); exact I.
Qed.

Lemma of_pos_positive (p : positive) :
  positive_number (binary_normalize prec emax (Zpos p) 0 false).
Proof.
  simpl. unfold binary_round.
  destruct (shl_align p 0 (fexp prec emax (Zpos (digits2_pos p) + 0)))
    as [mz ez] eqn:E.
  apply binary_round_aux_pos.
  unfold shl_align in E.
  destruct (fexp prec emax (Zpos (digits2_pos p) + 0) - 0) eqn:F;
    inversion E; subst; unfold fexp, emin, prec, emax in *; lia.
Qed.

End NumberFacts.

(** ** How one call of [detectStationary] acts *)

Module StepFacts.
Import JSNumber Sensors Spec NumberFacts.

Lemma of_length_positive (n : nat) : n <> O -> positive_number (of_length n).
Proof.
  intros Hn. unfold of_length, of_Z.
  destruct (Z.of_nat n) as [|p|p] eqn:E; try lia.
  apply of_pos_positive.
Qed.

Lemma div_zero_positive (y : number) : positive_number y -> div zero y = zero.
Proof.
  destruct y as [s|s| |s m e]; simpl; try contradiction;
    destruct s; simpl; try contradiction; reflexivity.
Qed.

Lemma sum_allZero (h : list DeviationData) :
  allZero h ->
  fold_left (fun acc data => add acc (value data)) h zero = zero.
Proof.
  induction 1 as [|data h Hd _ IH]; simpl; [reflexivity|].
  rewrite Hd. exact IH.
Qed.

Lemma sum_zeros (l : list number) :
  Forall (fun v => v = zero) l ->
  fold_left (fun acc val => add acc val) l zero = zero.
Proof.
  induction 1 as [|v l Hv _ IH]; simpl; [reflexivity|].
  rewrite Hv. exact IH.
Qed.

(** Over a window of zeros the mean is exactly 0 ... *)
Lemma calculateMean_allZero (d : StationaryDetector) :
  allZero (deviationHistory d) -> calculateMean d = zero.
Proof.
  intros Hz. unfold calculateMean.
  destruct (deviationHistory d) as [|a h] eqn:E; [reflexivity|].
  rewrite sum_allZero by exact Hz.
  apply div_zero_positive, of_length_positive. discriminate.
Qed.

(** ... and so is the standard deviation. *)
Lemma calculateStandardDeviation_allZero (d : StationaryDetector) :
  allZero (deviationHistory d) -> calculateStandardDeviation d = zero.
Proof.
  intros Hz. unfold calculateStandardDeviation.
  rewrite (calculateMean_allZero d Hz).
  destruct (deviationHistory d) as [|a h] eqn:E; [reflexivity|].
  rewrite sum_zeros.
  - rewrite div_zero_positive; [reflexivity|].
    apply of_length_positive. discriminate.
  - apply Forall_map. revert Hz. apply Forall_impl.
    intros data ->. reflexivity.
Qed.

(** A reading at rest contributes the deviation 0. *)
Lemma deviationOf_atRest (r : Reading) :
  atRest r -> deviationOf (accX r) (accY r) (accZ r) = zero.
Proof. unfold atRest, deviationOf. intros ->. reflexivity. Qed.

Lemma inserted_allZero (d : StationaryDetector) (r : Reading) :
  allZero (deviationHistory d) -> atRest r ->
  allZero (deviationHistory (inserted d r)).
Proof.
  intros Hz Hr. unfold inserted, addDeviationData, allZero. simpl.
  rewrite (deviationOf_atRest r Hr).
  apply Forall_forall. intros data Hin.
  apply filter_In in Hin. destruct Hin as [Hin _].
  apply in_app_or in Hin. destruct Hin as [Hin|[<-|[]]]; [|reflexivity].
  exact (proj1 (Forall_forall _ _) Hz data Hin).
Qed.

(** The insertion touches the array only. *)
Lemma inserted_frame (d : StationaryDetector) (r : Reading) :
  isStationary (inserted d r) = isStationary d /\
  stationaryStartTime (inserted d r) = stationaryStartTime d /\
  historyDurationMs (inserted d r) = historyDurationMs d /\
  meanThreshold (inserted d r) = meanThreshold d /\
  stdThreshold (inserted d r) = stdThreshold d /\
  stationaryDurationMs (inserted d r) = stationaryDurationMs d /\
  minSampleCount (inserted d r) = minSampleCount d.
Proof. repeat split. Qed.

(** The three ways through [detectStationary]. *)
Lemma step_short (d : StationaryDetector) (r : Reading) :
  enoughData (inserted d r) = false ->
  step d r = (inserted d r, neutral).
Proof.
  intros H. unfold step, detectStationary. fold (inserted d r).
  rewrite H. reflexivity.
Qed.

Lemma step_moving (d : StationaryDetector) (r : Reading) :
  enoughData (inserted d r) = true ->
  isCurrentlyStationary (inserted d r) = false ->
  step d r =
    (set_state (inserted d r) false None,
     Result.mk false (calculateMean (inserted d r))
               (calculateStandardDeviation (inserted d r)) 0
               (isStationary d)).
Proof.
  intros H Q. unfold step, detectStationary. fold (inserted d r).
  rewrite H, Q. reflexivity.
Qed.

Lemma step_quiet (d : StationaryDetector) (r : Reading) :
  enoughData (inserted d r) = true ->
  isCurrentlyStationary (inserted d r) = true ->
  let since := match stationaryStartTime d with
               | None => nowTime r
               | Some s => s
               end in
  let st := isStationary d
            || (stationaryDurationMs d <=? nowTime r - since) in
  step d r =
    (set_state (inserted d r) st (Some since),
     Result.mk st (calculateMean (inserted d r))
               (calculateStandardDeviation (inserted d r))
               (durationSince (Some since) (nowTime r))
               (negb (isStationary d) && st)).
Proof.
  intros H Q. unfold step, detectStationary. fold (inserted d r).
  rewrite H, Q. cbn zeta.
  change (stationaryStartTime (inserted d r)) with (stationaryStartTime d).
  change (isStationary (inserted d r)) with (isStationary d).
  change (stationaryDurationMs (inserted d r)) with (stationaryDurationMs d).
  destruct (stationaryDurationMs d <=? _); destruct (isStationary d);
    reflexivity.
Qed.

End StepFacts.

(** ** The drift rule of [LocationService] *)

Module DriftRule.
Import JSNumber Sensors Spec LocationService.

Example literals_are_nearest :
  lit_9_8 = literal 98 10 /\ lit_0_3 = literal 3 10 /\ lit_0_2 = literal 2 10 /\
  lit_0_5 = literal 5 10 /\ lit_0_1 = literal 1 10 /\ lit_5 = of_Z 5.
Proof. repeat split; vm_compute; reflexivity. Qed.

Example restedDetector_is_stationary :
  getIsStationary restedDetector = true /\
  getIsStationary (lastDetector (Sensors.constructor (Some detectorOptions))
                                (restStream 0 100 29)) = false.
Proof. split; vm_compute; reflexivity. Qed.

(** C1. On each GPS fix a drift signal is produced exactly when the detector
    is stationary and the speed of the fix, 0 when absent, is strictly above
    0.3; the signal carries that speed. With a stationary detector a speed of
    0.5 gives a signal carrying 0.5 and a speed of 0.1 gives none; with a
    detector that is not stationary no speed gives a signal. *)
Theorem drift_rule :
  (forall svc position,
      driftSignals (onPosition svc position) =
        let speed := nullish (speed (coords position)) zero in
        if getIsStationary (stationaryDetector svc) && ltb lit_0_3 speed
        then [speed] else [])
  /\ (forall svc position,
         getIsStationary (stationaryDetector svc) = true ->
         speed (coords position) = Some lit_0_5 ->
         driftSignals (onPosition svc position) = [lit_0_5])
  /\ (forall svc position,
         getIsStationary (stationaryDetector svc) = true ->
         speed (coords position) = Some lit_0_1 ->
         driftSignals (onPosition svc position) = [])
  /\ (forall svc position,
         getIsStationary (stationaryDetector svc) = false ->
         driftSignals (onPosition svc position) = []).
Proof.
  assert (G : forall svc position,
      driftSignals (onPosition svc position) =
        let speed := nullish (speed (coords position)) zero in
        if getIsStationary (stationaryDetector svc) && ltb lit_0_3 speed
        then [speed] else []).
  { intros svc position. unfold onPosition, GPS_DRIFT_SPEED_THRESHOLD.
    cbn zeta.
    destruct (getIsStationary (stationaryDetector svc)
              && ltb lit_0_3 (nullish (speed (coords position)) zero));
      reflexivity. }
  split; [exact G|].
  split; [|split]; intros svc position Hst; [intros Hsp| intros Hsp|];
    rewrite G; cbn zeta; rewrite Hst; try rewrite Hsp; reflexivity.
Qed.

Lemma drift_rule_witness :
  driftSignals (onPosition (mkLocationService (Some 1) restedDetector)
                           (fixWithSpeed (Some lit_0_5))) = [lit_0_5]
  /\ driftSignals (onPosition (mkLocationService (Some 1) restedDetector)
                              (fixWithSpeed (Some lit_0_1))) = []
  /\ driftSignals (onPosition LocationService.constructor
                              (fixWithSpeed (Some lit_5))) = [].
Proof.
  destruct drift_rule as [_ [H05 [H01 Hmoving]]].
  split; [|split].
  - apply H05; vm_compute; reflexivity.
  - apply H01; vm_compute; reflexivity.
  - apply Hmoving; vm_compute; reflexivity.
Defined.

End DriftRule.

(** ** Runs of the detector *)

Module RunFacts.
Import JSNumber Sensors Spec StepFacts.

Lemma inserted_length (d : StationaryDetector) (r : Reading) :
  (length (deviationHistory (inserted d r)) <= S (length (deviationHistory d)))%nat.
Proof.
  unfold inserted, addDeviationData. cbn [deviationHistory set_deviationHistory].
  etransitivity; [apply filter_length_le|].
  rewrite length_app. simpl. lia.
Qed.

Lemma step_sameConfig (d : StationaryDetector) (r : Reading) :
  sameConfig d (fst (step d r)).
Proof.
  unfold step, detectStationary. fold (inserted d r).
  destruct (enoughData (inserted d r)); [|repeat split].
  destruct (isCurrentlyStationary (inserted d r)); [|repeat split].
  cbn zeta. destruct (_ <=? _); repeat split.
Qed.

Lemma step_history (d : StationaryDetector) (r : Reading) :
  deviationHistory (fst (step d r)) = deviationHistory (inserted d r).
Proof.
  unfold step, detectStationary. fold (inserted d r).
  destruct (enoughData (inserted d r)); [|reflexivity].
  destruct (isCurrentlyStationary (inserted d r)); [|reflexivity].
  cbn zeta. destruct (_ <=? _); reflexivity.
Qed.

Lemma sameConfig_refl d : sameConfig d d.
Proof. repeat split. Qed.

Lemma sameConfig_trans d1 d2 d3 :
  sameConfig d1 d2 -> sameConfig d2 d3 -> sameConfig d1 d3.
Proof.
  unfold sameConfig. intros (a & b & c & e & f) (a' & b' & c' & e' & f').
  repeat split; congruence.
Qed.

Lemma feed_sameConfig (rs : list Reading) :
  forall d dr, In dr (feed d rs) -> sameConfig d (fst dr).
Proof.
  induction rs as [|r rs IH]; intros d dr Hin; simpl in Hin; [contradiction|].
  destruct Hin as [<-|Hin]; [apply step_sameConfig|].
  eapply sameConfig_trans; [apply step_sameConfig|].
  apply IH. exact Hin.
Qed.

Lemma lastDetector_sameConfig (rs : list Reading) (d : StationaryDetector) :
  sameConfig d (lastDetector d rs).
Proof.
  unfold lastDetector.
  destruct (feed d rs) as [|dr l] eqn:E; [apply sameConfig_refl|].
  apply (feed_sameConfig rs). rewrite E.
  destruct (@exists_last _ (dr :: l)) as [l' [x Hx]]; [discriminate|].
  rewrite Hx. rewrite last_last. apply in_or_app. right. left. reflexivity.
Qed.

(** The results of a prefix of the stream are a prefix of the results. *)
Lemma results_firstn (k : nat) :
  forall rs d, firstn k (results d rs) = results d (firstn k rs).
Proof.
  unfold results.
  induction k as [|k IH]; intros rs d; [reflexivity|].
  destruct rs as [|r rs]; [reflexivity|].
  simpl. f_equal. apply IH.
Qed.

(** While the array cannot yet hold [minSampleCount] samples every call
    answers with the neutral result. *)
Lemma short_run (rs : list Reading) :
  forall d,
    Z.of_nat (length (deviationHistory d) + length rs) < minSampleCount d ->
    Forall (fun res => res = neutral) (results d rs).
Proof.
  unfold results.
  induction rs as [|r rs IH]; intros d Hlen; simpl; [constructor|].
  pose proof (inserted_length d r) as Hl.
  assert (Hshort : enoughData (inserted d r) = false).
  { unfold enoughData. apply Z.leb_gt.
    change (minSampleCount (inserted d r)) with (minSampleCount d).
    simpl in Hlen. lia. }
  rewrite (step_short d r Hshort). simpl. constructor; [reflexivity|].
  apply IH.
  change (minSampleCount (inserted d r)) with (minSampleCount d).
  simpl in Hlen. lia.
Qed.

End RunFacts.

(** ** Too few samples, and [reset] *)

Module Pending.
Import JSNumber Sensors Spec StepFacts RunFacts.

(** C4. Whatever the parameters, each of the first [minSampleCount - 1]
    calls after construction, and after [reset], returns the neutral result
    (not stationary, mean 0, standard deviation 0, duration 0, no state
    change); and any call that finds fewer than [minSampleCount] samples in
    the window after insertion and pruning returns the neutral result,
    whatever the state before. *)
Theorem insufficient_data :
  (forall options rs,
      let d := constructor options in
      Forall (fun res => res = neutral)
             (firstn (Z.to_nat (minSampleCount d - 1)) (results d rs)))
  /\ (forall d rs,
         Forall (fun res => res = neutral)
                (firstn (Z.to_nat (minSampleCount d - 1))
                        (results (reset d) rs)))
  /\ (forall d r,
         enoughData (inserted d r) = false -> snd (step d r) = neutral).
Proof.
  assert (E : forall d rs, deviationHistory d = [] ->
      Forall (fun res => res = neutral)
             (firstn (Z.to_nat (minSampleCount d - 1)) (results d rs))).
  { intros d rs He.
    destruct (Z.le_gt_cases (minSampleCount d) 1) as [Hm|Hm].
    - replace (Z.to_nat (minSampleCount d - 1)) with O by lia. constructor.
    - rewrite results_firstn. apply short_run.
      rewrite He. simpl.
      pose proof (firstn_le_length (Z.to_nat (minSampleCount d - 1)) rs).
      lia. }
  split; [|split].
  - intros options rs d. apply E. reflexivity.
  - intros d rs. apply (E (reset d)). reflexivity.
  - intros d r H. rewrite (step_short d r H). reflexivity.
Qed.

Lemma insufficient_data_witness :
  snd (step restedDetector (fallReading 60000)) = neutral.
Proof.
  apply (proj2 (proj2 insufficient_data)). vm_compute. reflexivity.
Defined.

(** C6. [reset] is total, and the detector it returns is the initial one:
    empty window, [getIsStationary] false, no start of a quiet streak, the
    parameters untouched; so a detector built by the constructor is given
    back as built after any stream of readings, and after a reset any
    stream of fewer than [minSampleCount] calls returns the neutral result
    only, whatever the state before the reset. *)
Theorem reset_initial :
  (forall d,
      deviationHistory (reset d) = [] /\
      getIsStationary (reset d) = false /\
      stationaryStartTime (reset d) = None /\
      sameConfig d (reset d))
  /\ (forall options rs,
         reset (lastDetector (constructor options) rs) = constructor options)
  /\ (forall d rs,
         Z.of_nat (length rs) < minSampleCount d ->
         Forall (fun res => res = neutral) (results (reset d) rs)).
Proof.
  split; [|split].
  - intros d. repeat split.
  - intros options rs.
    destruct (lastDetector_sameConfig rs (constructor options))
      as (a & b & c & e & f).
    unfold reset, set_deviationHistory, set_state. simpl.
    unfold constructor at 6. f_equal; assumption.
  - intros d rs Hlen. apply short_run. simpl. exact Hlen.
Qed.

Lemma reset_initial_witness :
  Forall (fun res => res = neutral)
         (results (reset restedDetector) (restStream 4000 100 9)).
Proof.
  apply (proj2 (proj2 reset_initial)). vm_compute. reflexivity.
Defined.

End Pending.

(** ** Leaving the stationary state *)

Module Moving.
Import JSNumber Sensors Spec NumberFacts StepFacts RunFacts.

(** A mean or a standard deviation at or above its threshold makes the
    window not quiet. *)
Lemma above_threshold_not_quiet (d : StationaryDetector) :
  leb (meanThreshold d) (calculateMean d) = true \/
  leb (stdThreshold d) (calculateStandardDeviation d) = true ->
  isCurrentlyStationary d = false.
Proof.
  unfold isCurrentlyStationary. intros [H|H]; apply leb_not_ltb in H;
    rewrite H; [reflexivity | apply andb_false_r].
Qed.

(** C3. From any state with [isStationary = true], a call whose window
    holds at least [minSampleCount] samples and has a mean at or above
    [meanThreshold], or a standard deviation at or above [stdThreshold],
    returns [isStationary = false] and [stateChanged = true] at once,
    whatever the clock says; it clears [stationaryStartTime], and the
    duration it returns is 0. *)
Theorem hysteresis_immediate (d : StationaryDetector) (r : Reading) :
  isStationary d = true ->
  enoughData (inserted d r) = true ->
  leb (meanThreshold d) (calculateMean (inserted d r)) = true \/
  leb (stdThreshold d) (calculateStandardDeviation (inserted d r)) = true ->
  Result.isStationary (snd (step d r)) = false /\
  Result.stateChanged (snd (step d r)) = true /\
  Result.duration (snd (step d r)) = 0 /\
  stationaryStartTime (fst (step d r)) = None /\
  getIsStationary (fst (step d r)) = false.
Proof.
  intros Hst Hfull Habove.
  rewrite (step_moving d r Hfull
             (above_threshold_not_quiet (inserted d r) Habove)).
  simpl. rewrite Hst. repeat split.
Qed.

Lemma hysteresis_immediate_witness :
  isStationary restedDetector = true /\
  Result.isStationary (snd (step restedDetector (fallReading 3000))) = false /\
  Result.stateChanged (snd (step restedDetector (fallReading 3000))) = true /\
  Result.duration (snd (step restedDetector (fallReading 3000))) = 0 /\
  stationaryStartTime (fst (step restedDetector (fallReading 3000))) = None /\
  getIsStationary (fst (step restedDetector (fallReading 3000))) = false.
Proof.
  split; [vm_compute; reflexivity|].
  apply hysteresis_immediate.
  - vm_compute; reflexivity.
  - vm_compute; reflexivity.
  - left. vm_compute; reflexivity.
Defined.

(** C9. A call that finds fewer than [minSampleCount] samples in the window
    after insertion and pruning returns [isStationary = false] and
    [stateChanged = false] yet leaves the flag [isStationary] and
    [stationaryStartTime] of the detector as they were. So a detector that
    was stationary still answers [true] to [getIsStationary] right after
    such a call; a result with [stateChanged = true] comes only from a call
    with a full window, and the stationary detector reports its move with
    [stateChanged = true] on the first call whose full window is not
    quiet. *)
Theorem short_window_frame :
  (forall d r,
      enoughData (inserted d r) = false ->
      snd (step d r) = neutral /\
      isStationary (fst (step d r)) = isStationary d /\
      stationaryStartTime (fst (step d r)) = stationaryStartTime d)
  /\ (forall d r,
         getIsStationary d = true ->
         enoughData (inserted d r) = false ->
         Result.isStationary (snd (step d r)) = false /\
         Result.stateChanged (snd (step d r)) = false /\
         getIsStationary (fst (step d r)) = true)
  /\ (forall d r,
         Result.stateChanged (snd (step d r)) = true ->
         enoughData (inserted d r) = true)
  /\ (forall d r,
         getIsStationary d = true ->
         enoughData (inserted d r) = true ->
         isCurrentlyStationary (inserted d r) = false ->
         Result.isStationary (snd (step d r)) = false /\
         Result.stateChanged (snd (step d r)) = true /\
         getIsStationary (fst (step d r)) = false).
Proof.
  split; [|split; [|split]].
  - intros d r H. rewrite (step_short d r H). repeat split.
  - intros d r Hst H. rewrite (step_short d r H). repeat split. exact Hst.
  - intros d r H.
    destruct (enoughData (inserted d r)) eqn:E; [reflexivity|].
    rewrite (step_short d r E) in H. discriminate.
  - intros d r Hst Hfull Hq. rewrite (step_moving d r Hfull Hq).
    simpl. repeat split. exact Hst.
Qed.

Lemma short_window_frame_witness :
  let d9 := lastDetector restedDetector (fallStream 60000 100 9) in
  (Result.isStationary (snd (step restedDetector (fallReading 60000))) = false /\
   Result.stateChanged (snd (step restedDetector (fallReading 60000))) = false /\
   getIsStationary (fst (step restedDetector (fallReading 60000))) = true)
  /\ getIsStationary d9 = true
  /\ (Result.isStationary (snd (step d9 (fallReading 60900))) = false /\
      Result.stateChanged (snd (step d9 (fallReading 60900))) = true /\
      getIsStationary (fst (step d9 (fallReading 60900))) = false).
Proof.
  destruct short_window_frame as [_ [Hshort [_ Hmove]]].
  split; [|split].
  - apply Hshort; vm_compute; reflexivity.
  - vm_compute; reflexivity.
  - apply Hmove; vm_compute; reflexivity.
Defined.

End Moving.

(** ** The window of retained samples *)

Module Window.
Import JSNumber Sensors Spec StepFacts RunFacts.

Section Ordered.
Variable A : Type.
Variable R : A -> A -> Prop.

Lemma StronglySorted_snoc (l : list A) (x : A) :
  StronglySorted R l -> Forall (fun a => R a x) l ->
  StronglySorted R (l ++ [x]).
Proof.
  induction 1 as [|a l Hs IH Ha]; intros Hx; simpl.
  - constructor; constructor.
  - inversion Hx as [|? ? Hax Hlx]; subst.
    constructor; [apply IH; exact Hlx|].
    apply Forall_app. split; [exact Ha|]. constructor; [exact Hax|constructor].
Qed.

Lemma StronglySorted_filter (f : A -> bool) (l : list A) :
  StronglySorted R l -> StronglySorted R (filter f l).
Proof.
  induction 1 as [|a l Hs IH Ha]; simpl; [constructor|].
  destruct (f a); [|exact IH].
  constructor; [exact IH|].
  apply Forall_forall. intros b Hb. apply filter_In in Hb.
  exact (proj1 (Forall_forall _ _) Ha b (proj1 Hb)).
Qed.

End Ordered.

Lemma inserted_withinWindow (d : StationaryDetector) (r : Reading) :
  withinWindow (inserted d r) (pushTime r).
Proof.
  unfold withinWindow. apply Forall_forall. intros data Hin.
  unfold inserted, addDeviationData in Hin.
  cbn [deviationHistory set_deviationHistory] in Hin.
  apply filter_In in Hin. destruct Hin as [_ Hle].
  apply Z.leb_le in Hle. exact Hle.
Qed.

Lemma inserted_chronological (d : StationaryDetector) (r : Reading) :
  chronological (deviationHistory d) ->
  notAfter (deviationHistory d) (pushTime r) ->
  chronological (deviationHistory (inserted d r)) /\
  notAfter (deviationHistory (inserted d r)) (pushTime r).
Proof.
  intros Hc Hn. unfold inserted, addDeviationData.
  cbn [deviationHistory set_deviationHistory]. split.
  - apply StronglySorted_filter. apply StronglySorted_snoc; [exact Hc|].
    revert Hn. apply Forall_impl. intros data H. exact H.
  - apply Forall_forall. intros data Hin. apply filter_In in Hin.
    destruct Hin as [Hin _]. apply in_app_or in Hin.
    destruct Hin as [Hin|[<-|[]]].
    + exact (proj1 (Forall_forall _ _) Hn data Hin).
    + simpl. lia.
Qed.

Lemma notAfter_later (h : list DeviationData) (t t' : Z) :
  t <= t' -> notAfter h t -> notAfter h t'.
Proof.
  intros Hle. apply Forall_impl. intros data H. lia.
Qed.

(** Along a stream read with a clock that never goes back, every detector
    keeps its array in time order and inside the window of its last
    insertion. *)
Lemma feed_window (rs : list Reading) :
  forall d t,
    chronological (deviationHistory d) ->
    notAfter (deviationHistory d) t ->
    clockFrom t rs ->
    Forall (fun rdr =>
              chronological (deviationHistory (fst (snd rdr))) /\
              withinWindow (fst (snd rdr)) (pushTime (fst rdr)))
           (combine rs (feed d rs)).
Proof.
  induction rs as [|r rs IH]; intros d t Hc Hn Hclk; simpl; [constructor|].
  destruct Hclk as [Hle Hclk].
  destruct (inserted_chronological d r Hc (notAfter_later _ _ _ Hle Hn))
    as [Hc' Hn'].
  constructor.
  - simpl. split.
    + rewrite step_history. exact Hc'.
    + unfold withinWindow. rewrite step_history.
      destruct (step_sameConfig d r) as [-> _].
      exact (inserted_withinWindow d r).
  - apply (IH _ (pushTime r)); [| |exact Hclk]; rewrite step_history; assumption.
Qed.

(** C8. After the insertion made by a call of [detectStationary] every
    retained sample satisfies [now - timestamp <= historyDurationMs], [now]
    being the clock read by the insertion. If the array was in time order
    and held no sample later than [now], it is still in time order (the
    order of insertion is the order of time). Both hold along every stream
    fed to a new detector with a clock that never goes back; [reset] gives
    the empty array, for which they hold trivially, and [getIsStationary]
    only reads the flag. *)
Theorem window_invariant :
  (forall d r, withinWindow (fst (step d r)) (pushTime r))
  /\ (forall d r,
         chronological (deviationHistory d) ->
         notAfter (deviationHistory d) (pushTime r) ->
         chronological (deviationHistory (fst (step d r))) /\
         notAfter (deviationHistory (fst (step d r))) (pushTime r))
  /\ (forall d now,
         chronological (deviationHistory (reset d)) /\
         notAfter (deviationHistory (reset d)) now /\
         withinWindow (reset d) now)
  /\ (forall options t rs,
         clockFrom t rs ->
         Forall (fun rdr =>
                   chronological (deviationHistory (fst (snd rdr))) /\
                   withinWindow (fst (snd rdr)) (pushTime (fst rdr)))
                (combine rs (feed (constructor options) rs))).
Proof.
  split; [|split; [|split]].
  - intros d r. unfold withinWindow. rewrite step_history.
    destruct (step_sameConfig d r) as [-> _].
    exact (inserted_withinWindow d r).
  - intros d r Hc Hn. rewrite step_history.
    exact (inserted_chronological d r Hc Hn).
  - intros d now. repeat split; constructor.
  - intros options t rs Hclk.
    apply (feed_window rs (constructor options) t); [constructor|constructor|].
    exact Hclk.
Qed.

Lemma window_invariant_witness :
  (chronological (deviationHistory (fst (step (constructor None) (restReading 0))))
   /\ notAfter (deviationHistory (fst (step (constructor None) (restReading 0))))
               (pushTime (restReading 0)))
  /\ Forall (fun rdr =>
               chronological (deviationHistory (fst (snd rdr))) /\
               withinWindow (fst (snd rdr)) (pushTime (fst rdr)))
            (combine (restStream 0 100 3)
                     (feed (constructor None) (restStream 0 100 3))).
Proof.
  destruct window_invariant as [_ [Hstep [_ Hrun]]].
  split.
  - apply Hstep; constructor.
  - apply (Hrun None t0). simpl. unfold t0. lia.
Defined.

End Window.

(** ** Streams seen from their end *)

Module StreamFacts.
Import JSNumber Sensors Spec StepFacts RunFacts.

Lemma lastDetector_nil (d : StationaryDetector) : lastDetector d [] = d.
Proof. reflexivity. Qed.

Lemma last_default_irrelevant (A : Type) (l : list A) :
  forall x d1 d2 : A, last (x :: l) d1 = last (x :: l) d2.
Proof.
  induction l as [|y l IH]; intros x d1 d2; [reflexivity|].
  change (last (y :: l) d1 = last (y :: l) d2). apply IH.
Qed.

Lemma lastDetector_cons (d : StationaryDetector) (r : Reading)
      (rs : list Reading) :
  lastDetector d (r :: rs) = lastDetector (fst (step d r)) rs.
Proof.
  unfold lastDetector. cbn [feed].
  destruct rs as [|r' rs]; [reflexivity|].
  cbn [feed].
  change (last (step d r :: ?x :: ?l) ?z) with (last (x :: l) z).
  f_equal. apply last_default_irrelevant.
Qed.

Lemma lastDetector_app (rs1 rs2 : list Reading) :
  forall d, lastDetector d (rs1 ++ rs2) = lastDetector (lastDetector d rs1) rs2.
Proof.
  induction rs1 as [|r rs1 IH]; intros d; [reflexivity|].
  rewrite <- app_comm_cons, !lastDetector_cons. apply IH.
Qed.

Lemma lastDetector_snoc (rs : list Reading) (r : Reading) (d : StationaryDetector) :
  lastDetector d (rs ++ [r]) = fst (step (lastDetector d rs) r).
Proof. rewrite lastDetector_app. reflexivity. Qed.

Lemma feed_app (rs1 rs2 : list Reading) :
  forall d, feed d (rs1 ++ rs2) = feed d rs1 ++ feed (lastDetector d rs1) rs2.
Proof.
  induction rs1 as [|r rs1 IH]; intros d; [reflexivity|].
  rewrite <- app_comm_cons. cbn [feed]. rewrite lastDetector_cons.
  rewrite <- app_comm_cons. f_equal. apply IH.
Qed.

Lemma results_app (rs1 rs2 : list Reading) (d : StationaryDetector) :
  results d (rs1 ++ rs2) = results d rs1 ++ results (lastDetector d rs1) rs2.
Proof. unfold results. rewrite feed_app, map_app. reflexivity. Qed.

Lemma changes_app (l1 l2 : list Result.t) :
  changes (l1 ++ l2) = (changes l1 + changes l2)%nat.
Proof. unfold changes. rewrite filter_app, length_app. reflexivity. Qed.

(** The start time of a streak is a clock reading of some call, or the
    start time the stream began with. *)
Lemma start_bounded (rs : list Reading) :
  forall d T,
    (forall s, stationaryStartTime d = Some s -> s <= T) ->
    Forall (fun r => nowTime r <= T) rs ->
    forall s, stationaryStartTime (lastDetector d rs) = Some s -> s <= T.
Proof.
  induction rs as [|r rs IH]; intros d T Hd Hrs s; [apply Hd|].
  rewrite lastDetector_cons. inversion Hrs as [|? ? Hr Hrs']; subst.
  apply IH; [|exact Hrs']. clear s. intros s.
  destruct (enoughData (inserted d r)) eqn:Hfull.
  - destruct (isCurrentlyStationary (inserted d r)) eqn:Q.
    + rewrite (step_quiet d r Hfull Q). cbn.
      destruct (stationaryStartTime d) as [s0|] eqn:E; intros [= <-];
        [apply Hd; reflexivity | exact Hr].
    + rewrite (step_moving d r Hfull Q). cbn. discriminate.
  - rewrite (step_short d r Hfull). cbn. apply Hd.
Qed.

End StreamFacts.

(** ** The duration reported by a call *)

Module Duration.
Import JSNumber Sensors Spec StepFacts RunFacts.

(** The result of a call with a full window reports the duration computed
    from the start time left in the detector. *)
Lemma step_duration (d : StationaryDetector) (r : Reading) :
  enoughData (inserted d r) = true ->
  Result.duration (snd (step d r)) =
    durationSince (stationaryStartTime (fst (step d r))) (nowTime r).
Proof.
  intros Hfull.
  destruct (isCurrentlyStationary (inserted d r)) eqn:Q.
  - rewrite (step_quiet d r Hfull Q). reflexivity.
  - rewrite (step_moving d r Hfull Q). reflexivity.
Qed.

(** C7 as stated fails: on the call that starts a quiet streak the window
    is full and quiet, the dwell time has not elapsed, the result is not
    stationary, and the duration is 0, not positive. *)
Lemma dwell_duration_not_always_positive :
  ~ (forall d r,
        enoughData (inserted d r) = true ->
        isCurrentlyStationary (inserted d r) = true ->
        Result.isStationary (snd (step d r)) = false ->
        0 < Result.duration (snd (step d r))).
Proof.
  intros H.
  specialize (H (lastDetector (constructor None) (restStream 0 100 9))
                (restReading 900)).
  vm_compute in H.
  specialize (H eq_refl eq_refl eq_refl). discriminate H.
Qed.

(** C7, amended. For a call with a full window the duration returned is
    [now - stationaryStartTime] when the start time left in the detector is
    set and not 0, and 0 when it is not set. During the dwell period (quiet
    window, detector not yet stationary, less than [stationaryDurationMs]
    since the start of the streak) the result is not stationary and the
    duration is the time since the start of the streak: 0 on the call that
    starts the streak, positive exactly when the clock has advanced since. *)
Theorem duration_since_streak :
  (forall d r s,
      enoughData (inserted d r) = true ->
      stationaryStartTime (fst (step d r)) = Some s ->
      s <> 0 ->
      Result.duration (snd (step d r)) = nowTime r - s)
  /\ (forall d r,
         enoughData (inserted d r) = true ->
         stationaryStartTime (fst (step d r)) = None ->
         Result.duration (snd (step d r)) = 0)
  /\ (forall d r,
         enoughData (inserted d r) = true ->
         isCurrentlyStationary (inserted d r) = true ->
         isStationary d = false ->
         let since := match stationaryStartTime d with
                      | None => nowTime r
                      | Some s => s
                      end in
         nowTime r - since < stationaryDurationMs d ->
         since <> 0 ->
         Result.isStationary (snd (step d r)) = false /\
         stationaryStartTime (fst (step d r)) = Some since /\
         Result.duration (snd (step d r)) = nowTime r - since /\
         (stationaryStartTime d = None -> Result.duration (snd (step d r)) = 0) /\
         (0 < Result.duration (snd (step d r)) <-> since < nowTime r)).
Proof.
  split; [|split].
  - intros d r s Hfull Hs Hnz. rewrite (step_duration d r Hfull), Hs.
    unfold durationSince. apply Z.eqb_neq in Hnz. rewrite Hnz. reflexivity.
  - intros d r Hfull Hs. rewrite (step_duration d r Hfull), Hs. reflexivity.
  - intros d r Hfull Q Hst since Hdwell Hnz.
    rewrite (step_quiet d r Hfull Q). cbn zeta. fold since.
    rewrite Hst. apply Z.leb_gt in Hdwell. rewrite Hdwell.
    cbn [orb fst snd Result.isStationary Result.duration
         stationaryStartTime set_state durationSince].
    apply Z.eqb_neq in Hnz. rewrite Hnz.
    repeat split; try lia.
    intros Hnone. subst since. rewrite Hnone. lia.
Qed.

Lemma duration_since_streak_witness :
  let d := lastDetector (constructor None) (restStream 0 100 12) in
  Result.isStationary (snd (step d (restReading 1200))) = false /\
  stationaryStartTime (fst (step d (restReading 1200))) = Some (t0 + 900) /\
  Result.duration (snd (step d (restReading 1200))) = 300.
Proof.
  intros d.
  destruct duration_since_streak as [_ [_ Hdwell]].
  pose proof (Hdwell d (restReading 1200)) as H.
  assert (H1 : enoughData (inserted d (restReading 1200)) = true)
    by (vm_compute; reflexivity).
  assert (H2 : isCurrentlyStationary (inserted d (restReading 1200)) = true)
    by (vm_compute; reflexivity).
  assert (H3 : isStationary d = false) by (vm_compute; reflexivity).
  assert (H4 : stationaryStartTime d = Some (t0 + 900))
    by (vm_compute; reflexivity).
  specialize (H H1 H2 H3). cbn zeta in H. rewrite H4 in H.
  destruct H as (A & B & C & _).
  - vm_compute; reflexivity.
  - vm_compute; discriminate.
  - split; [exact A|]. split; [exact B|]. rewrite C. vm_compute. reflexivity.
Defined.

End Duration.

(** ** The three axes *)

Module Axes.
Import JSNumber Sensors Spec NumberFacts.

(** C10 as stated fails: the sum of the three squares is rounded after each
    addition, so exchanging the first and the third axis can change the
    magnitude in its last bit. For the reading (0.1, 0.2, 9.8) and its
    mirror image (9.8, 0.2, 0.1) the detector built with the default
    parameters stores different deviations, and one that classifies from
    the first sample on returns different means. *)
Lemma axis_exchange_changes_result :
  detectStationary (constructor None) lit_9_8 lit_0_2 lit_0_1 t0 t0
    <> detectStationary (constructor None) lit_0_1 lit_0_2 lit_9_8 t0 t0
  /\ (let d := constructor (Some (mkOptions None None None None (Some 1))) in
      Result.mean (snd (detectStationary d lit_9_8 lit_0_2 lit_0_1 t0 t0))
        <> Result.mean (snd (detectStationary d lit_0_1 lit_0_2 lit_9_8 t0 t0))).
Proof.
  split; vm_compute; intros H; discriminate H.
Qed.

(** C10, amended. [detectStationary] depends on (x, y, z) only through the
    computed magnitude, the rounded square root of the squares summed from
    left to right: two readings with the same computed magnitude give the
    same result and the same successor detector. Negating any axis, or
    exchanging the first two axes, leaves the computed magnitude, hence the
    result and the successor, as they are. *)
Theorem axes_through_magnitude :
  (forall d x y z x' y' z' tPush tNow,
      magnitude x y z = magnitude x' y' z' ->
      detectStationary d x y z tPush tNow =
        detectStationary d x' y' z' tPush tNow)
  /\ (forall d x y z tPush tNow,
         detectStationary d (neg x) y z tPush tNow =
           detectStationary d x y z tPush tNow /\
         detectStationary d x (neg y) z tPush tNow =
           detectStationary d x y z tPush tNow /\
         detectStationary d x y (neg z) tPush tNow =
           detectStationary d x y z tPush tNow /\
         detectStationary d y x z tPush tNow =
           detectStationary d x y z tPush tNow).
Proof.
  assert (M : forall d x y z x' y' z' tPush tNow,
             magnitude x y z = magnitude x' y' z' ->
             detectStationary d x y z tPush tNow =
               detectStationary d x' y' z' tPush tNow).
  { intros d x y z x' y' z' tPush tNow H.
    unfold detectStationary, deviationOf. rewrite H. reflexivity. }
  split; [exact M|].
  intros d x y z tPush tNow.
  repeat split; apply M; unfold magnitude.
  - rewrite mul_neg_neg. reflexivity.
  - rewrite mul_neg_neg. reflexivity.
  - rewrite mul_neg_neg. reflexivity.
  - rewrite (add_comm (mul y y) (mul x x)). reflexivity.
Qed.

Lemma axes_through_magnitude_witness :
  detectStationary restedDetector (neg lit_0_1) lit_0_2 lit_9_8 t0 t0 =
    detectStationary restedDetector lit_0_1 lit_0_2 lit_9_8 t0 t0.
Proof.
  apply (proj1 axes_through_magnitude). vm_compute. reflexivity.
Defined.

End Axes.

(** ** The dwell timer *)

Module Dwell.
Import JSNumber Sensors Spec StepFacts RunFacts StreamFacts.

(** A streak found in progress after some calls goes on with the next call
    when that call leaves the start time as it is. *)
Lemma streak_extend (d : StationaryDetector) (pre : list Reading)
      (r : Reading) (s : Z) :
  stationaryStartTime (fst (step (lastDetector d pre) r)) = Some s ->
  (exists pre1 q mid,
      pre = pre1 ++ q :: mid /\
      stationaryStartTime (lastDetector d pre1) = None /\
      quietAt (lastDetector d pre1) q /\
      s = nowTime q /\
      Forall (fun dr => stationaryStartTime (fst dr) = Some s)
             (feed (lastDetector d pre1) (q :: mid))) ->
  exists pre1 q mid,
    pre ++ [r] = pre1 ++ q :: mid /\
    stationaryStartTime (lastDetector d pre1) = None /\
    quietAt (lastDetector d pre1) q /\
    s = nowTime q /\
    Forall (fun dr => stationaryStartTime (fst dr) = Some s)
           (feed (lastDetector d pre1) (q :: mid)).
Proof.
  intros Hs (pre1 & q & mid & Hpre & Hnone & Hq & Hsq & Hall).
  exists pre1, q, (mid ++ [r]). repeat split; try assumption.
  - rewrite Hpre, <- app_assoc. reflexivity.
  - destruct Hq; assumption.
  - destruct Hq; assumption.
  - rewrite app_comm_cons, feed_app. apply Forall_app. split; [exact Hall|].
    rewrite <- lastDetector_app, <- Hpre. cbn [feed].
    constructor; [exact Hs | constructor].
Qed.

(** Every start time held by the detector was set by a quiet call that
    found it unset, and has been kept by every call since. *)
Lemma streak_origin (pre : list Reading) :
  forall d s,
    stationaryStartTime d = None ->
    stationaryStartTime (lastDetector d pre) = Some s ->
    exists pre1 q mid,
      pre = pre1 ++ q :: mid /\
      stationaryStartTime (lastDetector d pre1) = None /\
      quietAt (lastDetector d pre1) q /\
      s = nowTime q /\
      Forall (fun dr => stationaryStartTime (fst dr) = Some s)
             (feed (lastDetector d pre1) (q :: mid)).
Proof.
  induction pre as [|r pre IH] using rev_ind; intros d s Hd Hs.
  - rewrite lastDetector_nil in Hs. congruence.
  - pose proof Hs as Hs'. rewrite lastDetector_snoc in Hs'.
    set (dp := lastDetector d pre) in *.
    destruct (enoughData (inserted dp r)) eqn:Hfull.
    + destruct (isCurrentlyStationary (inserted dp r)) eqn:Q.
      * destruct (stationaryStartTime dp) as [s0|] eqn:E.
        -- assert (s0 = s).
           { rewrite (step_quiet dp r Hfull Q) in Hs'. cbn in Hs'.
             rewrite E in Hs'. congruence. }
           subst s0. apply streak_extend; [exact Hs'|].
           apply IH; assumption.
        -- assert (s = nowTime r).
           { rewrite (step_quiet dp r Hfull Q) in Hs'. cbn in Hs'.
             rewrite E in Hs'. congruence. }
           exists pre, r, []. repeat split; try assumption.
           cbn [feed]. constructor; [exact Hs' | constructor].
      * rewrite (step_moving dp r Hfull Q) in Hs'. discriminate Hs'.
    + apply streak_extend; [exact Hs'|].
      apply IH; [exact Hd|].
      rewrite (step_short dp r Hfull) in Hs'. exact Hs'.
Qed.

(** From a detector whose start time is unset the dwell restarts. *)
Lemma unset_dwellRestarts (d : StationaryDetector) :
  stationaryStartTime d = None -> dwellRestarts d.
Proof.
  intros Hd pre r Hch Hst.
  set (dp := lastDetector d pre) in *.
  destruct (enoughData (inserted dp r)) eqn:Hfull;
    [|rewrite (step_short dp r Hfull) in Hch; discriminate Hch].
  destruct (isCurrentlyStationary (inserted dp r)) eqn:Q;
    [|rewrite (step_moving dp r Hfull Q) in Hst; discriminate Hst].
  pose proof (step_quiet dp r Hfull Q) as E. cbn zeta in E.
  set (since := match stationaryStartTime dp with
                | Some s => s
                | None => nowTime r
                end) in *.
  rewrite E in Hch, Hst. cbn in Hch, Hst.
  destruct (isStationary dp); [discriminate Hch|]. cbn in Hst.
  apply Z.leb_le in Hst.
  assert (Hs : stationaryStartTime (lastDetector d (pre ++ [r])) = Some since).
  { rewrite lastDetector_snoc. fold dp. rewrite E. reflexivity. }
  destruct (streak_origin (pre ++ [r]) d since Hd Hs)
    as (pre1 & q & mid & Hpre & Hnone & Hq & Hsq & Hall).
  exists pre1, q, mid. rewrite <- Hsq.
  destruct (lastDetector_sameConfig pre d) as (_ & _ & _ & Hdur & _).
  fold dp in Hdur. rewrite <- Hdur.
  repeat split; try assumption; destruct Hq; assumption.
Qed.

(** C5 as stated fails: the start time is cleared only by a call that
    classifies. Twelve readings at rest 100 ms apart start a streak at
    [t0 + 900]; a reading in free fall 3.8 s later finds a window of one
    sample, which is not quiet, yet too short to be classified, so the
    start time stays. Ten readings at rest from [t0 + 7001] on then make
    the detector stationary at the first call whose window is full, 900 ms
    after the first of them: no new streak of [stationaryDurationMs] has
    passed since the reading in free fall. *)
Lemma short_noisy_window_keeps_timer :
  ~ (forall d r s,
        stationaryStartTime d = Some s ->
        isStationary d = false ->
        isCurrentlyStationary (inserted d r) = false ->
        stationaryStartTime (fst (step d r)) = None)
  /\ ~ (forall d r s,
           stationaryStartTime d = Some s ->
           isStationary d = false ->
           isCurrentlyStationary (inserted d r) = false ->
           dwellRestarts (fst (step d r))).
Proof.
  set (d := lastDetector (constructor None) (restStream 0 100 12)).
  set (r := fallReading 5000).
  assert (Hs : stationaryStartTime d = Some (t0 + 900))
    by (vm_compute; reflexivity).
  assert (Hf : isStationary d = false) by (vm_compute; reflexivity).
  assert (Hq : isCurrentlyStationary (inserted d r) = false)
    by (vm_compute; reflexivity).
  split; intros H; specialize (H d r (t0 + 900) Hs Hf Hq).
  - assert (E : stationaryStartTime (fst (step d r)) = Some (t0 + 900))
      by (vm_compute; reflexivity).
    rewrite E in H. discriminate H.
  - specialize (H (restStream 7001 100 9) (restReading 7901)).
    destruct H as (pre1 & q & mid & Hsplit & _ & _ & _ & Hdur);
      [vm_compute; reflexivity | vm_compute; reflexivity |].
    assert (Hlate : Forall (fun x => t0 + 7001 <= nowTime x)
                           (restStream 7001 100 9 ++ [restReading 7901])).
    { repeat (constructor; [vm_compute; discriminate|]). constructor. }
    rewrite Hsplit in Hlate. apply Forall_app in Hlate.
    destruct Hlate as [_ Hlate]. inversion Hlate as [|? ? Hqlate _]; subst.
    assert (Hd : stationaryDurationMs (fst (step d r)) = 2000)
      by (vm_compute; reflexivity).
    assert (Hn : nowTime (restReading 7901) = t0 + 7901) by reflexivity.
    rewrite Hd, Hn in Hdur. lia.
Qed.

(** C5, amended. While a quiet streak is in progress (start time set,
    detector not yet stationary), one call whose window after insertion
    and pruning holds at least [minSampleCount] samples and is not quiet
    clears the start time; from then on the transition to stationary is
    made only by a call that ends a new quiet streak, begun at a later
    quiet call and kept without interruption, that has lasted at least
    [stationaryDurationMs]. *)
Theorem debounce (d : StationaryDetector) (r : Reading) (s : Z) :
  stationaryStartTime d = Some s ->
  isStationary d = false ->
  enoughData (inserted d r) = true ->
  isCurrentlyStationary (inserted d r) = false ->
  stationaryStartTime (fst (step d r)) = None /\
  isStationary (fst (step d r)) = false /\
  Result.isStationary (snd (step d r)) = false /\
  dwellRestarts (fst (step d r)).
Proof.
  intros _ _ Hfull Q.
  assert (Hnone : stationaryStartTime (fst (step d r)) = None).
  { rewrite (step_moving d r Hfull Q). reflexivity. }
  split; [exact Hnone|].
  split; [rewrite (step_moving d r Hfull Q); reflexivity|].
  split; [rewrite (step_moving d r Hfull Q); reflexivity|].
  apply unset_dwellRestarts. exact Hnone.
Qed.

Lemma debounce_witness :
  let d := lastDetector (constructor None) (restStream 0 100 12) in
  stationaryStartTime (fst (step d (fallReading 1200))) = None /\
  isStationary (fst (step d (fallReading 1200))) = false /\
  Result.isStationary (snd (step d (fallReading 1200))) = false /\
  dwellRestarts (fst (step d (fallReading 1200))).
Proof.
  intros d. apply (debounce d (fallReading 1200) (t0 + 900));
    vm_compute; reflexivity.
Defined.

End Dwell.

(** ** A device left at rest *)

Module Rest.
Import JSNumber Sensors Spec StepFacts RunFacts StreamFacts.

(** A window of zeros is quiet when both thresholds are above 0. *)
Lemma rest_quiet (d : StationaryDetector) (r : Reading) :
  allZero (deviationHistory d) -> atRest r -> thresholdsPositive d ->
  isCurrentlyStationary (inserted d r) = true.
Proof.
  intros Hz Hr [Hm Hs]. unfold isCurrentlyStationary.
  pose proof (inserted_allZero d r Hz Hr) as Hz'.
  rewrite (calculateMean_allZero _ Hz'),
    (calculateStandardDeviation_allZero _ Hz').
  change (meanThreshold (inserted d r)) with (meanThreshold d).
  change (stdThreshold (inserted d r)) with (stdThreshold d).
  rewrite Hm, Hs. reflexivity.
Qed.

(** One call on a reading at rest. *)
Lemma rest_step (d : StationaryDetector) (r : Reading) :
  allZero (deviationHistory d) -> atRest r -> thresholdsPositive d ->
  allZero (deviationHistory (fst (step d r))) /\
  thresholdsPositive (fst (step d r)) /\
  (isStationary d = true -> isStationary (fst (step d r)) = true) /\
  (forall s, stationaryStartTime d = Some s ->
             stationaryStartTime (fst (step d r)) = Some s) /\
  Result.stateChanged (snd (step d r)) =
    negb (isStationary d) && isStationary (fst (step d r)) /\
  (Result.isStationary (snd (step d r)) = true ->
   isStationary (fst (step d r)) = true) /\
  (Result.stateChanged (snd (step d r)) = true ->
   Result.isStationary (snd (step d r)) = true).
Proof.
  intros Hz Hr Hthr.
  pose proof (inserted_allZero d r Hz Hr) as Hz'.
  split; [rewrite step_history; exact Hz'|].
  split.
  { destruct (step_sameConfig d r) as (_ & Hm & Hs & _).
    unfold thresholdsPositive. rewrite Hm, Hs. exact Hthr. }
  destruct (enoughData (inserted d r)) eqn:Hfull.
  - rewrite (step_quiet d r Hfull (rest_quiet d r Hz Hr Hthr)).
    cbn [fst snd Result.stateChanged Result.isStationary isStationary
         stationaryStartTime set_state].
    set (st := isStationary d || _).
    split; [intros H; subst st; rewrite H; reflexivity|].
    split; [intros s ->; reflexivity|].
    split; [reflexivity|].
    split; [intros H; exact H|].
    intros H. apply andb_true_iff in H. apply H.
  - rewrite (step_short d r Hfull). cbn. repeat split; try discriminate.
    + intros H; exact H.
    + intros s H; exact H.
    + destruct (isStationary d); reflexivity.
Qed.

(** Along a stream of readings at rest: the window stays a window of
    zeros, a stationary detector stays stationary, a start time stays, and
    the results announce one change if the detector became stationary and
    none otherwise. *)
Lemma rest_run (rs : list Reading) :
  forall d,
    allZero (deviationHistory d) -> thresholdsPositive d ->
    Forall atRest rs ->
    allZero (deviationHistory (lastDetector d rs)) /\
    thresholdsPositive (lastDetector d rs) /\
    (isStationary d = true -> isStationary (lastDetector d rs) = true) /\
    (forall s, stationaryStartTime d = Some s ->
               stationaryStartTime (lastDetector d rs) = Some s) /\
    changes (results d rs) =
      (if isStationary d then 0
       else if isStationary (lastDetector d rs) then 1 else 0)%nat /\
    Forall (fun res => Result.stateChanged res = true ->
                       Result.isStationary res = true) (results d rs).
Proof.
  induction rs as [|r rs IH]; intros d Hz Hthr Hrs.
  - rewrite lastDetector_nil.
    split; [exact Hz|]. split; [exact Hthr|].
    split; [intros H; exact H|]. split; [intros s H; exact H|].
    split; [|constructor].
    unfold results, changes. simpl. destruct (isStationary d); reflexivity.
  - inversion Hrs as [|? ? Hr Hrs']; subst.
    destruct (rest_step d r Hz Hr Hthr)
      as (Hz1 & Hthr1 & Hst1 & Hs1 & Hch & _ & Himp).
    destruct (IH (fst (step d r)) Hz1 Hthr1 Hrs')
      as (Hz2 & Hthr2 & Hst2 & Hs2 & Hcnt & Hall).
    rewrite lastDetector_cons.
    split; [exact Hz2|]. split; [exact Hthr2|].
    split; [intros H; apply Hst2, Hst1, H|].
    split; [intros s H; apply Hs2, Hs1, H|].
    split.
    + unfold results in *. cbn [feed map].
      unfold changes in *. cbn [filter]. rewrite Hch.
      destruct (isStationary d) eqn:E.
      * rewrite (Hst1 eq_refl) in *. cbn. exact Hcnt.
      * destruct (isStationary (fst (step d r))) eqn:E1; cbn.
        -- rewrite Hcnt. rewrite (Hst2 eq_refl). reflexivity.
        -- exact Hcnt.
    + unfold results. cbn [feed map]. constructor; [exact Himp|exact Hall].
Qed.

(** The start time in force at a call is not later than the clock of an
    earlier call that found the window full. *)
Lemma rest_since (d : StationaryDetector) (pre pre1 post1 : list Reading)
      (r q : Reading) :
  allZero (deviationHistory d) -> thresholdsPositive d ->
  stationaryStartTime d = None ->
  Forall atRest (pre ++ [r]) ->
  pre ++ [r] = pre1 ++ q :: post1 ->
  Forall (fun x => nowTime x <= nowTime q) pre1 ->
  enoughData (inserted (lastDetector d pre1) q) = true ->
  match stationaryStartTime (lastDetector d pre) with
  | Some s => s
  | None => nowTime r
  end <= nowTime q.
Proof.
  intros Hz Hthr Hnone Hrest Hsplit Hclk Hfull.
  assert (Hb : forall s, stationaryStartTime (lastDetector d pre1) = Some s ->
                         s <= nowTime q).
  { apply (start_bounded pre1 d (nowTime q)); [|exact Hclk].
    intros s H. congruence. }
  destruct post1 as [|x post1 _] using rev_ind.
  - apply app_inj_tail in Hsplit. destruct Hsplit as [-> ->].
    destruct (stationaryStartTime (lastDetector d pre1)) as [s|] eqn:E;
      [apply Hb; reflexivity | lia].
  - rewrite app_comm_cons, app_assoc in Hsplit.
    apply app_inj_tail in Hsplit. destruct Hsplit as [-> ->].
    assert (Hrest1 : Forall atRest pre1 /\ atRest q /\ Forall atRest post1).
    { rewrite <- app_assoc in Hrest. apply Forall_app in Hrest.
      destruct Hrest as [H1 H2]. split; [exact H1|].
      inversion H2 as [|? ? Hq H3]; subst. split; [exact Hq|].
      apply Forall_app in H3. apply H3. }
    destruct Hrest1 as (Hp1 & Hq & Hpost).
    destruct (rest_run pre1 d Hz Hthr Hp1) as (Hz1 & Hthr1 & _).
    set (dp := lastDetector d pre1) in *.
    assert (Hsq : exists s, stationaryStartTime (fst (step dp q)) = Some s /\
                            s <= nowTime q).
    { rewrite (step_quiet dp q Hfull (rest_quiet dp q Hz1 Hq Hthr1)). cbn.
      destruct (stationaryStartTime dp) as [s|] eqn:E.
      - exists s. split; [reflexivity | apply Hb; reflexivity].
      - exists (nowTime q). split; [reflexivity | lia]. }
    destruct Hsq as (s & Hs & Hle).
    destruct (rest_step dp q Hz1 Hq Hthr1) as (Hz2 & Hthr2 & _).
    destruct (rest_run post1 _ Hz2 Hthr2 Hpost) as (_ & _ & _ & Hkeep & _).
    rewrite lastDetector_app, lastDetector_cons. fold dp.
    rewrite (Hkeep s Hs). exact Hle.
Qed.

(** C2 as stated fails: with the default parameters, twelve readings at
    rest taken one second apart (more than [minSampleCount] samples, over
    eleven seconds, with a clock that never goes back) never make the
    detector stationary, because the window of two seconds never holds ten
    of them. *)
Lemma slow_sampling_never_stationary :
  ~ (forall options rs,
        let d := constructor options in
        Forall atRest rs ->
        Forall (fun r => pushTime r = nowTime r) rs ->
        clockFrom 0 rs ->
        minSampleCount d <= Z.of_nat (length rs) ->
        stationaryDurationMs d < elapsed rs ->
        Exists (fun res => Result.isStationary res = true) (results d rs)).
Proof.
  intros H. specialize (H None (restStream 0 1000 12)). cbn zeta in H.
  assert (E : results (constructor None) (restStream 0 1000 12)
              = repeat neutral 12) by (vm_compute; reflexivity).
  rewrite E in H.
  assert (X : Exists (fun res => Result.isStationary res = true)
                     (repeat neutral 12)).
  { apply H.
    - repeat (constructor; [vm_compute; reflexivity|]). constructor.
    - repeat (constructor; [reflexivity|]). constructor.
    - vm_compute. repeat split; discriminate.
    - vm_compute. discriminate.
    - vm_compute. reflexivity. }
  apply Exists_exists in X. destruct X as (res & Hin & Hres).
  apply repeat_spec in Hin. subst res. discriminate Hres.
Qed.

(** C2, amended. Take a detector with both thresholds above 0 that holds
    only zero deviations, no start time and is not stationary (a new one,
    or one just reset), and feed it readings at rest. If a call [q] finds
    at least [minSampleCount] samples in the window, no earlier call read a
    later clock, and a call [r], [q] itself or a later one, finds the
    window full at least [stationaryDurationMs] after [q], then [r] returns
    [isStationary = true]; exactly one result up to [r] has
    [stateChanged = true], and exactly one in the whole stream however long
    the rest goes on; every result with [stateChanged = true] is
    stationary; and that one change has been announced by the time of the
    first stationary result. *)
Theorem quiet_window_convergence
        (d : StationaryDetector) (pre pre1 post1 post : list Reading)
        (r q : Reading) :
  allZero (deviationHistory d) ->
  stationaryStartTime d = None ->
  isStationary d = false ->
  thresholdsPositive d ->
  Forall atRest (pre ++ r :: post) ->
  pre ++ [r] = pre1 ++ q :: post1 ->
  Forall (fun x => nowTime x <= nowTime q) pre1 ->
  enoughData (inserted (lastDetector d pre1) q) = true ->
  enoughData (inserted (lastDetector d pre) r) = true ->
  stationaryDurationMs d <= nowTime r - nowTime q ->
  Result.isStationary (snd (step (lastDetector d pre) r)) = true /\
  changes (results d (pre ++ [r])) = 1%nat /\
  changes (results d (pre ++ r :: post)) = 1%nat /\
  Forall (fun res => Result.stateChanged res = true ->
                     Result.isStationary res = true)
         (results d (pre ++ r :: post)) /\
  (forall pre' r' post',
      pre ++ r :: post = pre' ++ r' :: post' ->
      Result.isStationary (snd (step (lastDetector d pre') r')) = true ->
      changes (results d (pre' ++ [r'])) = 1%nat).
Proof.
  intros Hz Hnone Hst Hthr Hrest Hsplit Hclk Hfullq Hfullr Hdur.
  assert (Hparts : Forall atRest pre /\ atRest r /\ Forall atRest post).
  { apply Forall_app in Hrest. destruct Hrest as [H1 H2].
    inversion H2; subst. repeat split; assumption. }
  destruct Hparts as (Hpre & Hr & Hpost).
  assert (Hprer : Forall atRest (pre ++ [r])).
  { apply Forall_app. split; [exact Hpre|]. constructor; [exact Hr|constructor]. }
  destruct (rest_run pre d Hz Hthr Hpre) as (Hzp & Hthrp & _).
  pose proof (rest_since d pre pre1 post1 r q Hz Hthr Hnone Hprer Hsplit
                         Hclk Hfullq) as Hsince.
  set (dp := lastDetector d pre) in *.
  pose proof (step_quiet dp r Hfullr (rest_quiet dp r Hzp Hr Hthrp)) as E.
  cbn zeta in E.
  destruct (lastDetector_sameConfig pre d) as (_ & _ & _ & Hd & _).
  fold dp in Hd.
  assert (Hleb : (stationaryDurationMs dp <=?
                  nowTime r - match stationaryStartTime dp with
                              | Some s => s
                              | None => nowTime r
                              end) = true).
  { apply Z.leb_le. rewrite Hd. lia. }
  rewrite Hleb, orb_true_r in E.
  assert (Hstr : isStationary (lastDetector d (pre ++ [r])) = true).
  { rewrite lastDetector_snoc. fold dp. rewrite E. reflexivity. }
  split; [rewrite E; reflexivity|].
  split.
  { destruct (rest_run (pre ++ [r]) d Hz Hthr Hprer) as (_ & _ & _ & _ & C & _).
    rewrite C, Hst, Hstr. reflexivity. }
  assert (Hwhole : pre ++ r :: post = (pre ++ [r]) ++ post).
  { rewrite <- app_assoc. reflexivity. }
  split.
  { destruct (rest_run (pre ++ r :: post) d Hz Hthr Hrest)
      as (_ & _ & _ & _ & C & _).
    rewrite C, Hst. rewrite Hwhole, lastDetector_app.
    destruct (rest_run (pre ++ [r]) d Hz Hthr Hprer) as (Hz1 & Hthr1 & _).
    destruct (rest_run post _ Hz1 Hthr1 Hpost) as (_ & _ & Hkeep & _).
    rewrite (Hkeep Hstr). reflexivity. }
  split.
  { apply (rest_run (pre ++ r :: post) d Hz Hthr Hrest). }
  intros pre' r' post' Hsplit' Hres.
  assert (Hparts' : Forall atRest pre' /\ atRest r').
  { rewrite Hsplit' in Hrest. apply Forall_app in Hrest.
    destruct Hrest as [H1 H2]. inversion H2; subst. split; assumption. }
  destruct Hparts' as (Hpre' & Hr').
  assert (Hprer' : Forall atRest (pre' ++ [r'])).
  { apply Forall_app. split; [exact Hpre'|]. constructor; [exact Hr'|constructor]. }
  destruct (rest_run pre' d Hz Hthr Hpre') as (Hzp' & Hthrp' & _).
  destruct (rest_step _ r' Hzp' Hr' Hthrp') as (_ & _ & _ & _ & _ & Hdet & _).
  destruct (rest_run (pre' ++ [r']) d Hz Hthr Hprer') as (_ & _ & _ & _ & C & _).
  rewrite C, Hst, lastDetector_snoc, (Hdet Hres). reflexivity.
Qed.

Lemma quiet_window_convergence_witness :
  let d := constructor None in
  let pre := restStream 0 100 29 in
  let r := restReading 2900 in
  let post := restStream 3000 100 5 in
  Result.isStationary (snd (step (lastDetector d pre) r)) = true /\
  changes (results d (pre ++ [r])) = 1%nat /\
  changes (results d (pre ++ r :: post)) = 1%nat /\
  Forall (fun res => Result.stateChanged res = true ->
                     Result.isStationary res = true)
         (results d (pre ++ r :: post)) /\
  (forall pre' r' post',
      pre ++ r :: post = pre' ++ r' :: post' ->
      Result.isStationary (snd (step (lastDetector d pre') r')) = true ->
      changes (results d (pre' ++ [r'])) = 1%nat).
Proof.
  intros d pre r post.
  apply (quiet_window_convergence d pre (restStream 0 100 9)
           (restStream 1000 100 20) post r (restReading 900)).
  - constructor.
  - reflexivity.
  - reflexivity.
  - split; vm_compute; reflexivity.
  - repeat (constructor; [vm_compute; reflexivity|]). constructor.
  - vm_compute; reflexivity.
  - repeat (constructor; [vm_compute; discriminate|]). constructor.
  - vm_compute; reflexivity.
  - vm_compute; reflexivity.
  - vm_compute; discriminate.
Defined.

End Rest.

(** ** The flag and its announcements *)

Module Flag.
Import JSNumber Sensors Spec Notions StepFacts RunFacts StreamFacts.

Lemma step_changed (d : StationaryDetector) (r : Reading) :
  Result.stateChanged (snd (step d r)) =
    xorb (isStationary d) (isStationary (fst (step d r))).
Proof.
  destruct (enoughData (inserted d r)) eqn:Hfull.
  - destruct (isCurrentlyStationary (inserted d r)) eqn:Q.
    + rewrite (step_quiet d r Hfull Q). cbn.
      destruct (isStationary d); cbn; [reflexivity|].
      destruct (_ <=? _); reflexivity.
    + rewrite (step_moving d r Hfull Q). cbn.
      destruct (isStationary d); reflexivity.
  - rewrite (step_short d r Hfull). cbn.
    destruct (isStationary d); reflexivity.
Qed.

(** [stateChanged] is true exactly when the call changes the flag
    [isStationary] of the detector, and the [isStationary] of the result is
    the new flag when the window was full and [false] otherwise. *)
Theorem change_is_flag_flip (d : StationaryDetector) (r : Reading) :
  Result.stateChanged (snd (step d r)) =
    xorb (isStationary d) (isStationary (fst (step d r)))
  /\ Result.isStationary (snd (step d r)) =
       enoughData (inserted d r) && isStationary (fst (step d r)).
Proof.
  split; [apply step_changed|].
  destruct (enoughData (inserted d r)) eqn:Hfull.
  - destruct (isCurrentlyStationary (inserted d r)) eqn:Q.
    + rewrite (step_quiet d r Hfull Q). reflexivity.
    + rewrite (step_moving d r Hfull Q). reflexivity.
  - rewrite (step_short d r Hfull). reflexivity.
Qed.

(** Along any stream the flag at the end is the flag at the start, flipped
    once for every result with [stateChanged = true]. *)
Theorem flag_parity (rs : list Reading) :
  forall d,
    isStationary (lastDetector d rs) =
      xorb (isStationary d) (Nat.odd (changes (results d rs))).
Proof.
  induction rs as [|r rs IH]; intros d.
  - rewrite lastDetector_nil. cbn. destruct (isStationary d); reflexivity.
  - rewrite lastDetector_cons, IH.
    unfold results. cbn [feed map]. unfold changes. cbn [filter].
    rewrite (step_changed d r).
    destruct (isStationary d), (isStationary (fst (step d r))); cbn [xorb];
      try reflexivity;
      cbn [length]; rewrite Nat.odd_succ, <- Nat.negb_odd;
      destruct (Nat.odd _); reflexivity.
Qed.

(** A stationary detector always holds the start time of its streak: this
    is so after construction and after [reset], every call keeps it so,
    hence it is so after any stream fed to a new detector. *)
Theorem stationary_has_start :
  (forall options, streakKnown (constructor options))
  /\ (forall d, streakKnown (reset d))
  /\ (forall d r, streakKnown d -> streakKnown (fst (step d r)))
  /\ (forall options rs, streakKnown (lastDetector (constructor options) rs)).
Proof.
  assert (S : forall d r, streakKnown d -> streakKnown (fst (step d r))).
  { intros d r Hd. unfold streakKnown in *.
    destruct (enoughData (inserted d r)) eqn:Hfull.
    - destruct (isCurrentlyStationary (inserted d r)) eqn:Q.
      + rewrite (step_quiet d r Hfull Q). cbn. discriminate.
      + rewrite (step_moving d r Hfull Q). cbn. discriminate.
    - rewrite (step_short d r Hfull). exact Hd. }
  split; [intros options; unfold streakKnown; cbn; discriminate|].
  split; [intros d; unfold streakKnown; cbn; discriminate|].
  split; [exact S|].
  intros options rs.
  assert (G : forall d, streakKnown d -> streakKnown (lastDetector d rs)).
  { induction rs as [|r rs IH]; intros d Hd; [exact Hd|].
    rewrite lastDetector_cons. apply IH, S, Hd. }
  apply G. unfold streakKnown. cbn. discriminate.
Qed.

Lemma stationary_has_start_witness :
  streakKnown (fst (step restedDetector (restReading 3000))).
Proof.
  apply (proj1 (proj2 (proj2 stationary_has_start))).
  intros _. vm_compute. discriminate.
Defined.

(** The call that announces the transition to stationary leaves a start
    time that lies at least [stationaryDurationMs] before its clock, and,
    unless that start time is 0, reports as duration the time since then:
    the duration announced is at least [stationaryDurationMs]. *)
Theorem transition_reports_dwell (d : StationaryDetector) (r : Reading) :
  Result.stateChanged (snd (step d r)) = true ->
  Result.isStationary (snd (step d r)) = true ->
  exists since,
    stationaryStartTime (fst (step d r)) = Some since /\
    stationaryDurationMs d <= nowTime r - since /\
    (since <> 0 ->
     Result.duration (snd (step d r)) = nowTime r - since /\
     stationaryDurationMs d <= Result.duration (snd (step d r))).
Proof.
  intros Hch Hst.
  destruct (enoughData (inserted d r)) eqn:Hfull;
    [|rewrite (step_short d r Hfull) in Hch; discriminate Hch].
  destruct (isCurrentlyStationary (inserted d r)) eqn:Q;
    [|rewrite (step_moving d r Hfull Q) in Hst; discriminate Hst].
  pose proof (step_quiet d r Hfull Q) as E. cbn zeta in E.
  set (since := match stationaryStartTime d with
                | Some s => s
                | None => nowTime r
                end) in *.
  rewrite E in Hch, Hst |- *. cbn in Hch, Hst |- *.
  destruct (isStationary d); [discriminate Hch|]. cbn in Hst.
  apply Z.leb_le in Hst.
  exists since. split; [reflexivity|]. split; [exact Hst|].
  intros Hnz. apply Z.eqb_neq in Hnz. rewrite Hnz. split; [reflexivity|exact Hst].
Qed.

Lemma transition_reports_dwell_witness :
  let d := lastDetector (constructor None) (restStream 0 100 29) in
  exists since,
    stationaryStartTime (fst (step d (restReading 2900))) = Some since /\
    stationaryDurationMs d <= nowTime (restReading 2900) - since /\
    (since <> 0 ->
     Result.duration (snd (step d (restReading 2900)))
       = nowTime (restReading 2900) - since /\
     stationaryDurationMs d
       <= Result.duration (snd (step d (restReading 2900)))).
Proof.
  intros d. apply (transition_reports_dwell d (restReading 2900));
    vm_compute; reflexivity.
Defined.

(** With a clock that never goes back, fed to a detector whose start time,
    if any, is not in the future, no result carries a negative duration. *)
Theorem duration_never_negative (rs : list Reading) :
  forall d t,
    (forall s, stationaryStartTime d = Some s -> s <= t) ->
    nowFrom t rs ->
    Forall (fun res => 0 <= Result.duration res) (results d rs).
Proof.
  unfold results.
  induction rs as [|r rs IH]; intros d t Hd Hclk; cbn [feed map];
    [constructor|].
  destruct Hclk as [Hle Hclk].
  assert (H : 0 <= Result.duration (snd (step d r)) /\
              forall s, stationaryStartTime (fst (step d r)) = Some s ->
                        s <= nowTime r).
  { destruct (enoughData (inserted d r)) eqn:Hfull.
    - destruct (isCurrentlyStationary (inserted d r)) eqn:Q.
      + rewrite (step_quiet d r Hfull Q). cbn.
        assert (Hs : match stationaryStartTime d with
                     | Some s => s
                     | None => nowTime r
                     end <= nowTime r).
        { destruct (stationaryStartTime d) as [s|] eqn:E; [|lia].
          specialize (Hd s eq_refl). lia. }
        split; [destruct (_ =? 0); lia|].
        intros s [= <-]. exact Hs.
      + rewrite (step_moving d r Hfull Q). cbn. split; [lia|discriminate].
    - rewrite (step_short d r Hfull). cbn. split; [lia|].
      intros s Hs. specialize (Hd s Hs). lia. }
  destruct H as [H0 Hnext].
  constructor; [exact H0|]. apply (IH _ (nowTime r)); assumption.
Qed.

Lemma duration_never_negative_witness :
  Forall (fun res => 0 <= Result.duration res)
         (results (constructor None) (restStream 0 100 12)).
Proof.
  apply (duration_never_negative (restStream 0 100 12) (constructor None) t0).
  - intros s H. discriminate H.
  - vm_compute. repeat split; discriminate.
Defined.

End Flag.

(** ** What the window holds *)

Module WindowContent.
Import JSNumber Sensors Spec Notions StepFacts RunFacts StreamFacts.

Lemma filter_absorb (A : Type) (p q : A -> bool) (l : list A) :
  (forall x, p x = true -> q x = true) ->
  filter p (filter q l) = filter p l.
Proof.
  intros Hpq. induction l as [|a l IH]; [reflexivity|]. cbn [filter].
  destruct (q a) eqn:Q.
  - cbn [filter]. rewrite IH. reflexivity.
  - rewrite IH. destruct (p a) eqn:P; [|reflexivity].
    rewrite (Hpq a P) in Q. discriminate Q.
Qed.

Lemma clockFrom_last (rs : list Reading) :
  forall t r0, clockFrom t rs -> rs <> [] -> t <= pushTime (last rs r0).
Proof.
  induction rs as [|r rs IH]; intros t r0 Hclk Hne; [congruence|].
  destruct Hclk as [Hle Hclk]. destruct rs as [|r' rs]; [exact Hle|].
  change (last (r :: r' :: rs) r0) with (last (r' :: rs) r0).
  specialize (IH (pushTime r) r0 Hclk). etransitivity; [exact Hle|].
  apply IH. discriminate.
Qed.

Lemma step_window (d : StationaryDetector) (r : Reading) :
  deviationHistory (fst (step d r)) =
    filter (inRange d (pushTime r)) (deviationHistory d ++ [sampleOf r]).
Proof. rewrite step_history. reflexivity. Qed.

Lemma inRange_sameConfig (d d' : StationaryDetector) :
  sameConfig d d' -> inRange d' = inRange d.
Proof. intros [H _]. unfold inRange. rewrite H. reflexivity. Qed.

Lemma window_after_stream (rs : list Reading) :
  forall d t r0,
    clockFrom t rs -> rs <> [] ->
    deviationHistory (lastDetector d rs) =
      filter (inRange d (pushTime (last rs r0)))
             (deviationHistory d ++ map sampleOf rs).
Proof.
  induction rs as [|r rs IH]; intros d t r0 Hclk Hne; [congruence|].
  destruct Hclk as [Hle Hclk]. rewrite lastDetector_cons.
  destruct rs as [|r' rs].
  - rewrite lastDetector_nil. apply step_window.
  - change (last (r :: r' :: rs) r0) with (last (r' :: rs) r0).
    rewrite (IH (fst (step d r)) (pushTime r) r0 Hclk) by discriminate.
    rewrite (inRange_sameConfig d _ (step_sameConfig d r)).
    rewrite step_window, filter_app, filter_absorb.
    + rewrite <- filter_app, <- app_assoc. reflexivity.
    + intros x Hx. unfold inRange in *.
      pose proof (clockFrom_last (r' :: rs) (pushTime r) r0 Hclk) as Hl.
      apply Z.leb_le in Hx. apply Z.leb_le.
      assert (r' :: rs <> []) as Hne' by discriminate.
      specialize (Hl Hne'). lia.
Qed.

(** When the clock of the insertions never goes back, the window after a
    stream holds exactly the samples, of the window it started with and of
    the stream, that are at most [historyDurationMs] older than the last
    insertion, in their order: pruning at earlier calls loses nothing that
    would still be in range. *)
Theorem window_is_recent_samples
        (d : StationaryDetector) (pre : list Reading) (r : Reading) (t : Z) :
  clockFrom t (pre ++ [r]) ->
  deviationHistory (lastDetector d (pre ++ [r])) =
    filter (inRange d (pushTime r))
           (deviationHistory d ++ map sampleOf (pre ++ [r])).
Proof.
  intros Hclk.
  rewrite (window_after_stream (pre ++ [r]) d t r Hclk)
    by (destruct pre; discriminate).
  rewrite last_last. reflexivity.
Qed.

Lemma window_is_recent_samples_witness :
  deviationHistory (lastDetector (constructor None)
                                 (restStream 0 1000 4 ++ [restReading 4000])) =
    filter (inRange (constructor None) (pushTime (restReading 4000)))
           (deviationHistory (constructor None)
            ++ map sampleOf (restStream 0 1000 4 ++ [restReading 4000])).
Proof.
  apply (window_is_recent_samples _ _ _ t0).
  vm_compute. repeat split; discriminate.
Defined.

Lemma step_keeps_newest (d : StationaryDetector) (r : Reading) :
  0 <= historyDurationMs d ->
  exists older, deviationHistory (fst (step d r)) = older ++ [sampleOf r].
Proof.
  intros Hh. rewrite step_window, filter_app.
  exists (filter (inRange d (pushTime r)) (deviationHistory d)).
  f_equal. cbn [filter]. unfold inRange, sampleOf. cbn [timestamp].
  replace (pushTime r - pushTime r <=? historyDurationMs d) with true;
    [reflexivity|].
  symmetry. apply Z.leb_le. lia.
Qed.

(** With [historyDurationMs >= 0] the sample just inserted is always
    retained, as the last of the window. With a negative
    [historyDurationMs] and no sample from the future the window is empty
    after every call, so a detector with [minSampleCount >= 1] never
    classifies. *)
Theorem newest_sample_retained :
  (forall d r,
      0 <= historyDurationMs d ->
      exists older,
        deviationHistory (fst (step d r)) = older ++ [sampleOf r])
  /\ (forall d r,
         historyDurationMs d < 0 ->
         notAfter (deviationHistory d) (pushTime r) ->
         deviationHistory (fst (step d r)) = [] /\
         (1 <= minSampleCount d -> snd (step d r) = neutral)).
Proof.
  split.
  - exact step_keeps_newest.
  - intros d r Hh Hn.
    assert (E : deviationHistory (fst (step d r)) = []).
    { rewrite step_window, filter_app. cbn [filter].
      unfold inRange at 2. unfold sampleOf. cbn [timestamp].
      replace (pushTime r - pushTime r <=? historyDurationMs d) with false
        by (symmetry; apply Z.leb_gt; lia).
      rewrite app_nil_r.
      induction Hn as [|a h Ha _ IH]; [reflexivity|]. cbn [filter].
      unfold inRange at 1.
      replace (pushTime r - timestamp a <=? historyDurationMs d) with false
        by (symmetry; apply Z.leb_gt; lia).
      exact IH. }
    split; [exact E|]. intros Hm.
    assert (Hshort : enoughData (inserted d r) = false).
    { unfold enoughData. rewrite <- step_history, E.
      change (minSampleCount (inserted d r)) with (minSampleCount d).
      apply Z.leb_gt. cbn. lia. }
    rewrite (step_short d r Hshort). reflexivity.
Qed.

Lemma newest_sample_retained_witness :
  (exists older,
      deviationHistory (fst (step restedDetector (restReading 3000)))
        = older ++ [sampleOf (restReading 3000)])
  /\ (let d := constructor (Some (mkOptions (Some (-1)) None None None None)) in
      deviationHistory (fst (step d (restReading 0))) = [] /\
      (1 <= minSampleCount d -> snd (step d (restReading 0)) = neutral)).
Proof.
  destruct newest_sample_retained as [Hkeep Hdrop]. split.
  - apply Hkeep. vm_compute. discriminate.
  - intros d. apply Hdrop; [vm_compute; reflexivity | constructor].
Defined.

End WindowContent.

(** ** Readings that are not numbers *)

Module Faults.
Import JSNumber Sensors Spec Notions StepFacts RunFacts WindowContent.

Lemma add_nan_r (a : number) : add a S754_nan = S754_nan.
Proof. destruct a; reflexivity. Qed.

Lemma deviationOf_nan (x y z : number) :
  x = S754_nan \/ y = S754_nan \/ z = S754_nan ->
  deviationOf x y z = S754_nan.
Proof.
  unfold deviationOf, magnitude. intros [->|[->| ->]].
  - reflexivity.
  - change (mul S754_nan S754_nan) with S754_nan. rewrite add_nan_r.
    reflexivity.
  - change (mul S754_nan S754_nan) with S754_nan. rewrite add_nan_r.
    reflexivity.
Qed.

Lemma sum_from_nan (h : list DeviationData) :
  fold_left (fun acc data => add acc (value data)) h S754_nan = S754_nan.
Proof. induction h as [|a h IH]; [reflexivity | exact IH]. Qed.

Lemma sum_with_nan (h : list DeviationData) :
  Exists (fun data => value data = S754_nan) h ->
  forall acc,
    fold_left (fun acc data => add acc (value data)) h acc = S754_nan.
Proof.
  induction 1 as [a h Ha|a h _ IH]; intros acc; cbn [fold_left].
  - rewrite Ha, add_nan_r. apply sum_from_nan.
  - apply IH.
Qed.

Lemma nan_window_not_quiet (d : StationaryDetector) :
  Exists (fun data => value data = S754_nan) (deviationHistory d) ->
  calculateMean d = S754_nan /\ isCurrentlyStationary d = false.
Proof.
  intros Hn.
  assert (M : calculateMean d = S754_nan).
  { unfold calculateMean.
    destruct (deviationHistory d) as [|a h] eqn:E; [inversion Hn|].
    rewrite (sum_with_nan _ Hn). reflexivity. }
  split; [exact M|]. unfold isCurrentlyStationary. rewrite M. reflexivity.
Qed.

(** A reading with an axis that is not a number is stored as a deviation
    that is not a number. A window that holds such a deviation has a mean
    that is not a number and is never quiet; so, with
    [historyDurationMs >= 0], the call for such a reading, if its window is
    full, returns [isStationary = false] with that mean, leaves the detector
    not stationary without start time, and announces a change exactly when
    the detector was stationary. *)
Theorem nan_reading_blocks :
  (forall x y z,
      x = S754_nan \/ y = S754_nan \/ z = S754_nan ->
      deviationOf x y z = S754_nan)
  /\ (forall d,
         Exists (fun data => value data = S754_nan) (deviationHistory d) ->
         calculateMean d = S754_nan /\ isCurrentlyStationary d = false)
  /\ (forall d r,
         0 <= historyDurationMs d ->
         accX r = S754_nan \/ accY r = S754_nan \/ accZ r = S754_nan ->
         enoughData (inserted d r) = true ->
         Result.isStationary (snd (step d r)) = false /\
         Result.mean (snd (step d r)) = S754_nan /\
         Result.stateChanged (snd (step d r)) = isStationary d /\
         getIsStationary (fst (step d r)) = false /\
         stationaryStartTime (fst (step d r)) = None).
Proof.
  split; [exact deviationOf_nan|]. split; [exact nan_window_not_quiet|].
  intros d r Hh Hnan Hfull.
  assert (Hex : Exists (fun data => value data = S754_nan)
                       (deviationHistory (inserted d r))).
  { destruct (step_keeps_newest d r Hh) as [older E].
    rewrite step_history in E. rewrite E. apply Exists_app. right.
    constructor. unfold sampleOf. cbn [value].
    apply deviationOf_nan, Hnan. }
  destruct (nan_window_not_quiet _ Hex) as [M Q].
  rewrite (step_moving d r Hfull Q). cbn. rewrite M. repeat split.
Qed.

Lemma nan_reading_blocks_witness :
  let r := mkReading zero S754_nan lit_9_8 (t0 + 3000) (t0 + 3000) in
  Result.isStationary (snd (step restedDetector r)) = false /\
  Result.mean (snd (step restedDetector r)) = S754_nan /\
  Result.stateChanged (snd (step restedDetector r))
    = isStationary restedDetector /\
  getIsStationary (fst (step restedDetector r)) = false /\
  stationaryStartTime (fst (step restedDetector r)) = None.
Proof.
  intros r. apply (proj2 (proj2 nan_reading_blocks)).
  - vm_compute. discriminate.
  - right. left. reflexivity.
  - vm_compute. reflexivity.
Defined.

End Faults.

(** ** The life cycle of the service *)

Module Lifecycle.
Import JSNumber Sensors Spec Notions StepFacts RunFacts StreamFacts Flag.
Import Service.

Lemma countEffects_app (f : Effect -> bool) (es es' : list Effect) :
  countEffects f (es ++ es') = (countEffects f es + countEffects f es')%nat.
Proof. unfold countEffects. rewrite filter_app, length_app. reflexivity. Qed.

Lemma perform_balance (s : State) (c : Call) :
  paired s ->
  paired (fst (perform s c)) /\
  (countEffects isWatchPosition (snd (perform s c)) + watching s
   = countEffects isClearWatch (snd (perform s c))
     + watching (fst (perform s c)))%nat /\
  (countEffects isSubscribe (snd (perform s c)) + watching s
   = countEffects isUnsubscribe (snd (perform s c))
     + watching (fst (perform s c)))%nat.
Proof.
  destruct s as [w a det]. unfold paired, watching, isWatching.
  cbn [Service.watchId Service.accelerometerSubscription].
  intros Hp.
  destruct c as [sub id| |r|p|code msg].
  - cbn [perform]. unfold startWatching. cbn [Service.watchId].
    destruct w as [w|].
    + cbn. split; [exact Hp|]. split; reflexivity.
    + cbn. split; [split; discriminate|]. split; reflexivity.
  - cbn [perform]. unfold stopWatching. cbn [Service.watchId].
    destruct w as [w|], a as [a|]; cbn.
    + split; [tauto|]. split; reflexivity.
    + destruct Hp as [_ Hp]. specialize (Hp eq_refl). discriminate Hp.
    + destruct Hp as [Hp _]. specialize (Hp eq_refl). discriminate Hp.
    + split; [tauto|]. split; reflexivity.
  - cbn [perform]. unfold onAccelerometer. cbn [fst snd Service.watchId
        Service.accelerometerSubscription Service.stationaryDetector].
    split; [exact Hp|].
    destruct (Result.stateChanged _); [destruct (Result.isStationary _)|];
      split; reflexivity.
  - cbn [perform]. unfold onPosition, LocationService.onPosition.
    cbn [fst snd Service.watchId Service.accelerometerSubscription].
    split; [exact Hp|].
    destruct (_ && _); split; reflexivity.
  - cbn. split; [exact Hp|]. split; reflexivity.
Qed.

(** Over any history of calls that starts with the watch and the
    subscription held together or not at all: they are still held together
    or not at all; position watches opened and cleared balance, up to the
    one that is open while the service is watching; and so do
    subscriptions made and ended. No watch and no subscription is ever
    opened over one that is still open. *)
Theorem watch_balance (cs : list Call) :
  forall s,
    paired s ->
    paired (fst (run s cs)) /\
    (countEffects isWatchPosition (snd (run s cs)) + watching s
     = countEffects isClearWatch (snd (run s cs))
       + watching (fst (run s cs)))%nat /\
    (countEffects isSubscribe (snd (run s cs)) + watching s
     = countEffects isUnsubscribe (snd (run s cs))
       + watching (fst (run s cs)))%nat.
Proof.
  induction cs as [|c cs IH]; intros s Hp.
  - cbn. repeat split; apply Hp.
  - cbn [run fst snd].
    destruct (perform_balance s c Hp) as (Hp1 & Hw1 & Hs1).
    destruct (IH _ Hp1) as (Hp2 & Hw2 & Hs2).
    split; [exact Hp2|]. rewrite !countEffects_app. split; lia.
Qed.

Lemma watch_balance_witness :
  let cs := [CallStart 1 7; CallStart 2 8; Reading (restReading 0);
             CallStop; CallStop; CallStart 3 9] in
  paired (fst (run Service.constructor cs)) /\
  (countEffects isWatchPosition (snd (run Service.constructor cs))
   + watching Service.constructor
   = countEffects isClearWatch (snd (run Service.constructor cs))
     + watching (fst (run Service.constructor cs)))%nat /\
  (countEffects isSubscribe (snd (run Service.constructor cs))
   + watching Service.constructor
   = countEffects isUnsubscribe (snd (run Service.constructor cs))
     + watching (fst (run Service.constructor cs)))%nat.
Proof.
  intros cs. apply (watch_balance cs Service.constructor).
  split; reflexivity.
Defined.

(** Stopping a service that was started from rest gives back the state it
    had before the start, detector included, after clearing the very watch
    and ending the very subscription that the start obtained; and stopping
    a service that is stopped does nothing. *)
Theorem start_stop_round_trip :
  (forall s subscription id,
      Service.watchId s = None ->
      Service.accelerometerSubscription s = None ->
      stopWatching (fst (startWatching s subscription id)) =
        (s, [ClearWatch id; Console WatchingStopped;
             Unsubscribe subscription; Console AccelerometerStopped]))
  /\ (forall s,
         stopWatching (fst (stopWatching s)) = (fst (stopWatching s), [])).
Proof.
  split.
  - intros [w a det] sub id Hw Ha. cbn in Hw, Ha. subst w a. reflexivity.
  - intros [w a det]. destruct w, a; reflexivity.
Qed.

Lemma start_stop_round_trip_witness :
  stopWatching (fst (startWatching Service.constructor 1 7)) =
    (Service.constructor,
     [ClearWatch 7; Console WatchingStopped;
      Unsubscribe 1; Console AccelerometerStopped]).
Proof.
  apply (proj1 start_stop_round_trip); reflexivity.
Defined.

Lemma perform_detector (s : State) (c : Call) :
  Service.stationaryDetector (fst (perform s c)) =
    lastDetector (Service.stationaryDetector s) (readingsOf [c]).
Proof.
  destruct s as [w a det], c as [sub id| |r|p|code msg]; cbn.
  - unfold startWatching. cbn. destruct w; reflexivity.
  - unfold stopWatching. cbn. destruct w, a; reflexivity.
  - reflexivity.
  - reflexivity.
  - reflexivity.
Qed.

Lemma readingsOf_cons (c : Call) (cs : list Call) :
  readingsOf (c :: cs) = readingsOf [c] ++ readingsOf cs.
Proof. unfold readingsOf. cbn. rewrite app_nil_r. reflexivity. Qed.

(** Whatever the order of starts, stops, fixes, errors and readings, the
    detector of the service is the detector it began with, fed the
    accelerometer readings alone: starting and stopping never reset it, so
    a restarted service goes on from the flag and the window it had. *)
Theorem detector_follows_readings (cs : list Call) :
  forall s,
    Service.stationaryDetector (fst (run s cs)) =
      lastDetector (Service.stationaryDetector s) (readingsOf cs)
    /\ Service.getIsStationary (fst (run s cs)) =
         Sensors.getIsStationary
           (lastDetector (Service.stationaryDetector s) (readingsOf cs)).
Proof.
  assert (G : forall s,
             Service.stationaryDetector (fst (run s cs)) =
               lastDetector (Service.stationaryDetector s) (readingsOf cs)).
  { induction cs as [|c cs IH]; intros s; [reflexivity|].
    cbn [run fst]. rewrite IH, (readingsOf_cons c cs), lastDetector_app.
    rewrite <- perform_detector. reflexivity. }
  intros s. split; [apply G|]. unfold Service.getIsStationary.
  rewrite G. reflexivity.
Qed.

End Lifecycle.

(** ** What the service writes about the state *)

Module Logging.
Import JSNumber Sensors Spec Notions StepFacts RunFacts StreamFacts.
Import Service Lifecycle.

Lemma perform_logs (s : State) (c : Call) :
  countEffects isStateLog (snd (perform s c)) =
    changes (results (Service.stationaryDetector s) (readingsOf [c]))
  /\ countEffects isBecameStationary (snd (perform s c)) =
       length (filter (fun res => Result.stateChanged res
                                  && Result.isStationary res)
                      (results (Service.stationaryDetector s)
                               (readingsOf [c]))).
Proof.
  destruct s as [w a det], c as [sub id| |r|p|code msg]; cbn.
  - unfold startWatching. cbn. destruct w; split; reflexivity.
  - unfold stopWatching. cbn. destruct w, a; split; reflexivity.
  - unfold changes, results. cbn.
    destruct (Result.stateChanged (snd (step det r)));
      [destruct (Result.isStationary (snd (step det r)))|];
      split; reflexivity.
  - unfold LocationService.onPosition. cbn.
    destruct (_ && _); split; reflexivity.
  - split; reflexivity.
Qed.

(** The service writes one entry about the state of the device for every
    accelerometer reading whose result has [stateChanged = true], and none
    otherwise; the entry says that the device became stationary exactly
    when that result has [isStationary = true]. Starts, stops, fixes and
    errors write none. *)
Theorem state_logs_count (cs : list Call) :
  forall s,
    countEffects isStateLog (snd (run s cs)) =
      changes (results (Service.stationaryDetector s) (readingsOf cs))
    /\ countEffects isBecameStationary (snd (run s cs)) =
         length (filter (fun res => Result.stateChanged res
                                    && Result.isStationary res)
                        (results (Service.stationaryDetector s)
                                 (readingsOf cs))).
Proof.
  induction cs as [|c cs IH]; intros s; [split; reflexivity|].
  cbn [run fst snd]. rewrite !countEffects_app, (readingsOf_cons c cs).
  rewrite results_app, changes_app, filter_app, length_app.
  destruct (perform_logs s c) as [-> ->].
  destruct (IH (fst (perform s c))) as [-> ->].
  rewrite perform_detector. split; reflexivity.
Qed.

Lemma ltb_threshold_positive (x : number) :
  ltb lit_0_3 x = true -> positive_number x.
Proof.
  destruct x as [s|s| |s m e]; cbn; try discriminate;
    destruct s; cbn; try discriminate; intros _; exact I.
Qed.

(** A drift warning is written only for a fix that reports a speed, and
    only when that speed is a positive number: an absent speed, a speed
    that is not a number, zero and negative speeds never give a warning,
    even when the detector is stationary. *)
Theorem drift_speed_positive
        (svc : LocationService.LocationService)
        (position : LocationService.Position) (s : number) :
  In s (LocationService.driftSignals
          (LocationService.onPosition svc position)) ->
  LocationService.speed (LocationService.coords position) = Some s /\
  positive_number s /\
  Sensors.getIsStationary (LocationService.stationaryDetector svc) = true.
Proof.
  unfold LocationService.onPosition,
    LocationService.GPS_DRIFT_SPEED_THRESHOLD.
  destruct (Sensors.getIsStationary (LocationService.stationaryDetector svc));
    cbn; [|contradiction].
  destruct (LocationService.speed (LocationService.coords position))
    as [v|]; cbn.
  - destruct (ltb lit_0_3 v) eqn:L; cbn; [|contradiction].
    intros [<-|[]]. repeat split. apply ltb_threshold_positive, L.
  - contradiction.
Qed.

Lemma drift_speed_positive_witness :
  LocationService.speed
    (LocationService.coords (fixWithSpeed (Some lit_0_5))) = Some lit_0_5 /\
  positive_number lit_0_5 /\
  Sensors.getIsStationary
    (LocationService.stationaryDetector
       (LocationService.mkLocationService (Some 1) restedDetector)) = true.
Proof.
  apply (drift_speed_positive
           (LocationService.mkLocationService (Some 1) restedDetector)
           (fixWithSpeed (Some lit_0_5)) lit_0_5).
  vm_compute. left. reflexivity.
Defined.

Lemma perform_quiet_service (s : State) (c : Call) :
  Service.getIsStationary s = false ->
  countEffects isBecameStationary (snd (perform s c)) = O ->
  Service.getIsStationary (fst (perform s c)) = false /\
  countEffects isDriftWarning (snd (perform s c)) = O.
Proof.
  destruct s as [w a det]. unfold Service.getIsStationary, Sensors.getIsStationary.
  cbn [Service.stationaryDetector]. intros Hf.
  destruct c as [sub id| |r|p|code msg]; cbn [perform].
  - unfold startWatching. cbn. destruct w; intros _; split; assumption || reflexivity.
  - unfold stopWatching. cbn. destruct w, a; intros _; split;
      assumption || reflexivity.
  - unfold onAccelerometer.
    cbn [fst snd Service.watchId Service.accelerometerSubscription
         Service.stationaryDetector].
    destruct (enoughData (inserted det r)) eqn:Hfull.
    + destruct (isCurrentlyStationary (inserted det r)) eqn:Q.
      * rewrite (step_quiet det r Hfull Q). cbn. rewrite Hf. cbn.
        destruct (_ <=? _); cbn; [discriminate|].
        intros _. split; reflexivity.
      * rewrite (step_moving det r Hfull Q). cbn. rewrite Hf.
        intros _. split; reflexivity.
    + rewrite (step_short det r Hfull). cbn. intros _. split; [exact Hf|reflexivity].
  - unfold onPosition, LocationService.onPosition, view.
    cbn. unfold Sensors.getIsStationary. rewrite Hf. cbn.
    intros _. split; reflexivity.
  - cbn. intros _. split; [exact Hf|reflexivity].
Qed.

(** From a service whose detector is not stationary, as long as no entry
    saying that the device became stationary has been written, the detector
    is still not stationary and no drift warning has been written, whatever
    the speeds of the fixes. *)
Theorem no_drift_before_stationary (cs : list Call) :
  forall s,
    Service.getIsStationary s = false ->
    countEffects isBecameStationary (snd (run s cs)) = O ->
    Service.getIsStationary (fst (run s cs)) = false /\
    countEffects isDriftWarning (snd (run s cs)) = O.
Proof.
  induction cs as [|c cs IH]; intros s Hf Hlog; [split; [exact Hf|reflexivity]|].
  cbn [run fst snd] in *. rewrite countEffects_app in Hlog.
  destruct (perform_quiet_service s c Hf) as [Hf1 Hd1]; [lia|].
  destruct (IH _ Hf1) as [Hf2 Hd2]; [lia|].
  split; [exact Hf2|]. rewrite countEffects_app, Hd1, Hd2. reflexivity.
Qed.

Lemma no_drift_before_stationary_witness :
  let cs := [CallStart 1 7; Reading (restReading 0);
             Position (fixWithSpeed (Some lit_5)); CallStop] in
  Service.getIsStationary (fst (run Service.constructor cs)) = false /\
  countEffects isDriftWarning (snd (run Service.constructor cs)) = O.
Proof.
  intros cs. apply (no_drift_before_stationary cs Service.constructor).
  - reflexivity.
  - vm_compute. reflexivity.
Defined.

End Logging.

(** ** Staying stationary *)

Module Persistence.
Import JSNumber Sensors Spec Notions StepFacts RunFacts StreamFacts.

(** A stationary detector stays stationary through every call, whatever
    the two clocks read, except a call whose window is full and not quiet:
    neither a short window nor a clock that jumps back ends the state. *)
Theorem stationary_until_noise (d : StationaryDetector) (r : Reading) :
  isStationary d = true ->
  isStationary (fst (step d r)) =
    negb (enoughData (inserted d r)
          && negb (isCurrentlyStationary (inserted d r))).
Proof.
  intros Hst.
  destruct (enoughData (inserted d r)) eqn:Hfull.
  - destruct (isCurrentlyStationary (inserted d r)) eqn:Q.
    + rewrite (step_quiet d r Hfull Q). cbn. rewrite Hst. reflexivity.
    + rewrite (step_moving d r Hfull Q). reflexivity.
  - rewrite (step_short d r Hfull). cbn. exact Hst.
Qed.

Lemma stationary_until_noise_witness :
  let r := mkReading lit_9_8 zero zero (t0 + 3000) (t0 - 500000) in
  isStationary (fst (step restedDetector r)) =
    negb (enoughData (inserted restedDetector r)
          && negb (isCurrentlyStationary (inserted restedDetector r))).
Proof.
  intros r. apply (stationary_until_noise restedDetector r).
  vm_compute. reflexivity.
Defined.

End Persistence.
